(** * Conference registration backend: registration-to-payment state machine

    A shallow embedding of [backend/server.py] (FastAPI handlers over a
    MongoDB collection and the Razorpay gateway) together with the
    properties of its pricing computation, order issuance and payment
    signature verification.

    Conventions.
    - A Python [str] is a [string] holding its UTF-8 bytes, so that
      [s.encode()] is the list of its bytes and equality of texts is
      equality of strings.
    - A Python [int] is a [Z].
    - [hashlib.sha256] and [hmac.new(...).hexdigest()] are embedded
      executably (FIPS 180-4, RFC 2104) over 32-bit words kept in [Z]. *)

From Stdlib Require Import ZArith List Ascii String Lia Bool.
From stdpp Require Import base option list strings gmap.

Open Scope Z_scope.
Open Scope string_scope.

(** ** hashlib.sha256 *)

Module SHA256.

Definition w32 (x : Z) : Z := x mod 2 ^ 32.

Definition add32 (x y : Z) : Z := w32 (x + y).

Definition rotr (n x : Z) : Z :=
  Z.lor (Z.shiftr x n) (w32 (Z.shiftl x (32 - n))).

Definition shr (n x : Z) : Z := Z.shiftr x n.

Definition not32 (x : Z) : Z := Z.lxor x 0xffffffff.

Definition Ch (x y z : Z) : Z :=
  Z.lxor (Z.land x y) (Z.land (not32 x) z).

Definition Maj (x y z : Z) : Z :=
  Z.lxor (Z.lxor (Z.land x y) (Z.land x z)) (Z.land y z).

Definition Sigma0 (x : Z) : Z :=
  Z.lxor (Z.lxor (rotr 2 x) (rotr 13 x)) (rotr 22 x).

Definition Sigma1 (x : Z) : Z :=
  Z.lxor (Z.lxor (rotr 6 x) (rotr 11 x)) (rotr 25 x).

Definition sigma0 (x : Z) : Z :=
  Z.lxor (Z.lxor (rotr 7 x) (rotr 18 x)) (shr 3 x).

Definition sigma1 (x : Z) : Z :=
  Z.lxor (Z.lxor (rotr 17 x) (rotr 19 x)) (shr 10 x).

(** The constants of FIPS 180-4, derived as the standard defines them:
    the first 32 bits of the fractional parts of the cube roots (for
    [K]) and of the square roots (for [H0]) of the first primes. *)
Definition is_prime (n : Z) : bool :=
  Z.ltb 1 n && forallb (fun d => negb (Z.eqb (n mod d) 0))
                 (map Z.of_nat (seq 2 (Z.to_nat n - 2))).

Definition primes (count : nat) : list Z :=
  firstn count (filter is_prime (map Z.of_nat (seq 2 310))).

(** Greatest [r + k] with [k < 2 ^ bits] whose cube does not exceed [n]. *)
Fixpoint cube_root (bits : nat) (n r : Z) : Z :=
  match bits with
  | O => r
  | S b =>
      let c := r + 2 ^ Z.of_nat b in
      cube_root b n (if Z.leb (c * c * c) n then c else r)
  end.

Definition frac_cube_root (p : Z) : Z := w32 (cube_root 36 (p * 2 ^ 96) 0).

Definition frac_square_root (p : Z) : Z := w32 (Z.sqrt (p * 2 ^ 64)).

Definition K : list Z := Eval vm_compute in map frac_cube_root (primes 64).

Definition H0 : list Z := Eval vm_compute in map frac_square_root (primes 8).

(** Big-endian rendering of [x] on [n] bytes. *)
Fixpoint be_bytes (n : nat) (x : Z) : list Z :=
  match n with
  | O => []
  | S n' => Z.shiftr x (8 * Z.of_nat n') mod 256 :: be_bytes n' x
  end.

Definition be_word (bs : list Z) : Z :=
  fold_left (fun acc b => acc * 256 + b) bs 0.

(** Message padding: a 0x80 byte, zero bytes up to 56 modulo 64, then
    the bit length on eight bytes. *)
Definition pad (msg : list Z) : list Z :=
  let len := Z.of_nat (length msg) in
  let zeros := Z.to_nat ((55 - len) mod 64) in
  msg ++ [0x80] ++ repeat 0 zeros ++ be_bytes 8 (8 * len).

Fixpoint chunks (fuel n : nat) (l : list Z) : list (list Z) :=
  match fuel with
  | O => []
  | S fuel' =>
      match l with
      | [] => []
      | _ => firstn n l :: chunks fuel' n (skipn n l)
      end
  end.

Definition words_of_block (block : list Z) : list Z :=
  map be_word (chunks 16 4 block).

(** The message schedule, built in reverse: [rev_w] holds [W(t-1)] first. *)
Fixpoint schedule (n : nat) (rev_w : list Z) : list Z :=
  match n with
  | O => rev_w
  | S n' =>
      let w := add32 (add32 (sigma1 (nth 1 rev_w 0)) (nth 6 rev_w 0))
                     (add32 (sigma0 (nth 14 rev_w 0)) (nth 15 rev_w 0)) in
      schedule n' (w :: rev_w)
  end.

Record regs := Regs { ra : Z; rb : Z; rc : Z; rd : Z;
                      re : Z; rf : Z; rg : Z; rh : Z }.

Definition round (s : regs) (kw : Z * Z) : regs :=
  let '(k, w) := kw in
  let t1 := add32 (add32 (add32 (add32 (rh s) (Sigma1 (re s)))
                                 (Ch (re s) (rf s) (rg s))) k) w in
  let t2 := add32 (Sigma0 (ra s)) (Maj (ra s) (rb s) (rc s)) in
  Regs (add32 t1 t2) (ra s) (rb s) (rc s) (add32 (rd s) t1) (re s) (rf s) (rg s).

Definition regs_of (h : list Z) : regs :=
  Regs (nth 0 h 0) (nth 1 h 0) (nth 2 h 0) (nth 3 h 0)
       (nth 4 h 0) (nth 5 h 0) (nth 6 h 0) (nth 7 h 0).

Definition list_of (s : regs) : list Z :=
  [ra s; rb s; rc s; rd s; re s; rf s; rg s; rh s].

Definition compress (h : list Z) (block : list Z) : list Z :=
  let w := rev (schedule 48 (rev (words_of_block block))) in
  let s := fold_left round (combine K w) (regs_of h) in
  map (fun p => add32 (fst p) (snd p)) (combine h (list_of s)).

Definition digest (msg : list Z) : list Z :=
  let padded := pad msg in
  let blocks := chunks (length padded) 64 padded in
  flat_map (be_bytes 4) (fold_left compress blocks H0).

End SHA256.

(** ** hmac.new(key, msg, hashlib.sha256) *)

Module HMAC.

Definition block_size : nat := 64.

Definition block_key (key : list Z) : list Z :=
  let k := if (block_size <? length key)%nat then SHA256.digest key else key in
  k ++ repeat 0 (block_size - length k).

Definition digest (key msg : list Z) : list Z :=
  let k := block_key key in
  let ipad := map (Z.lxor 0x36) k in
  let opad := map (Z.lxor 0x5c) k in
  SHA256.digest (opad ++ SHA256.digest (ipad ++ msg)).

End HMAC.

(** ** str.encode() and bytes.hex() *)

Definition encode (s : string) : list Z :=
  map (fun c => Z.of_N (N_of_ascii c)) (list_ascii_of_string s).

Definition hex_digit (n : Z) : ascii :=
  nth (Z.to_nat n) (list_ascii_of_string "0123456789abcdef") "0"%char.

Fixpoint hex (bs : list Z) : string :=
  match bs with
  | [] => EmptyString
  | b :: bs' => String (hex_digit (b / 16)) (String (hex_digit (b mod 16)) (hex bs'))
  end.

(** [hmac.new(key.encode(), msg.encode(), hashlib.sha256).hexdigest()] *)
Definition hmac_sha256_hexdigest (key msg : string) : string :=
  hex (HMAC.digest (encode key) (encode msg)).

(** ** Pydantic models *)

Module RegistrationCreate.
Record t : Type := mk {
  full_name : string;
  email : string;
  phone : string;
  category : string;
  organization : option string;
  designation : option string;
  address : option string;
  accommodation_required : bool;
  room_type : option string;
  check_in_date : option string;
  check_out_date : option string
}.
End RegistrationCreate.

(** [Registration.t T] is the record with [created_at : T]: the model
    carries a [datetime], the stored document its ISO-8601 text. *)
Module Registration.
Record t (T : Type) : Type := mk {
  id : string;
  full_name : string;
  email : string;
  phone : string;
  category : string;
  organization : option string;
  designation : option string;
  address : option string;
  accommodation_required : bool;
  room_type : option string;
  check_in_date : option string;
  check_out_date : option string;
  amount : Z;
  payment_status : string;
  order_id : option string;
  payment_id : option string;
  created_at : T
}.
Arguments mk {T}.
Arguments id {T}.
Arguments full_name {T}.
Arguments email {T}.
Arguments phone {T}.
Arguments category {T}.
Arguments organization {T}.
Arguments designation {T}.
Arguments address {T}.
Arguments accommodation_required {T}.
Arguments room_type {T}.
Arguments check_in_date {T}.
Arguments check_out_date {T}.
Arguments amount {T}.
Arguments payment_status {T}.
Arguments order_id {T}.
Arguments payment_id {T}.
Arguments created_at {T}.

Definition with_created_at {T U : Type} (c : U) (r : t T) : t U :=
  mk (id r) (full_name r) (email r) (phone r) (category r) (organization r)
     (designation r) (address r) (accommodation_required r) (room_type r)
     (check_in_date r) (check_out_date r) (amount r) (payment_status r)
     (order_id r) (payment_id r) c.

Definition with_order_id {T : Type} (v : option string) (r : t T) : t T :=
  mk (id r) (full_name r) (email r) (phone r) (category r) (organization r)
     (designation r) (address r) (accommodation_required r) (room_type r)
     (check_in_date r) (check_out_date r) (amount r) (payment_status r)
     v (payment_id r) (created_at r).

Definition with_payment_status {T : Type} (v : string) (r : t T) : t T :=
  mk (id r) (full_name r) (email r) (phone r) (category r) (organization r)
     (designation r) (address r) (accommodation_required r) (room_type r)
     (check_in_date r) (check_out_date r) (amount r) v
     (order_id r) (payment_id r) (created_at r).

Definition with_payment_id {T : Type} (v : option string) (r : t T) : t T :=
  mk (id r) (full_name r) (email r) (phone r) (category r) (organization r)
     (designation r) (address r) (accommodation_required r) (room_type r)
     (check_in_date r) (check_out_date r) (amount r) (payment_status r)
     (order_id r) v (created_at r).
End Registration.

Module OrderCreate.
Record t : Type := mk {
  amount : Z;
  currency : string;
  registration_id : string
}.
End OrderCreate.

Module PaymentVerification.
Record t : Type := mk {
  razorpay_order_id : string;
  razorpay_payment_id : string;
  razorpay_signature : string;
  registration_id : string
}.
End PaymentVerification.

(** ** datetime *)

(** The two [datetime] operations the handlers use. [fromisoformat]
    answers [None] where Python raises [ValueError]. *)
Class DateTime : Type := {
  datetime : Type;
  isoformat : datetime -> string;
  fromisoformat : string -> option datetime
}.

(** ** Module-level configuration *)

Record Config : Type := {
  razorpay_key_id : string;
  razorpay_key_secret : string
}.

(** Truth value of a [str] and of an [Optional[str]]. *)
Definition truthy (s : string) : bool :=
  match s with EmptyString => false | String _ _ => true end.

Definition truthy_opt (o : option string) : bool :=
  match o with Some s => truthy s | None => false end.

Record Client : Type := { auth : string * string }.

(** [razorpay_client] stays [None] unless both credentials are non-empty. *)
Definition razorpay_client (cfg : Config) : option Client :=
  if truthy (razorpay_key_id cfg) && truthy (razorpay_key_secret cfg)
  then Some {| auth := (razorpay_key_id cfg, razorpay_key_secret cfg) |}
  else None.

(** ** Pricing configuration (amounts in INR) *)

Definition PRICING : gmap string Z :=
  list_to_map
    [ ("delegate_early_bird", 12000);
      ("delegate_regular", 15000);
      ("delegate_late", 18000);
      ("student_early_bird", 6000);
      ("student_regular", 8000);
      ("student_late", 10000);
      ("accompanying_person", 5000);
      ("workshop_only", 3000) ].

Definition ROOM_PRICING : gmap string Z :=
  list_to_map
    [ ("standard", 6000);
      ("deluxe", 8000);
      ("suite", 12000) ].

(** [d.get(k, dflt)] *)
Definition dict_get (d : gmap string Z) (k : string) (dflt : Z) : Z :=
  default dflt (d !! k).

(** [d.get(k, dflt)] at a key of type [Optional[str]]: [None] is never a key. *)
Definition dict_get_opt (d : gmap string Z) (k : option string) (dflt : Z) : Z :=
  match k with Some s => dict_get d s dflt | None => dflt end.

(** ** The registrations collection *)

(** A stored document: the dumped model with [created_at] as text. *)
Abbreviation Doc := (Registration.t string).

(** The backing store: whether it can be reached, and the documents of
    [db.registrations] in insertion order. Nothing constrains the [id]
    field of two documents to differ. *)
Record Database : Type := {
  reachable : bool;
  registrations : list Doc
}.

Definition with_registrations (docs : list Doc) (db : Database) : Database :=
  {| reachable := reachable db; registrations := docs |}.

(** ** Exceptions and the handler monad *)

Inductive exn : Type :=
| HTTPException (status_code : Z) (detail : string)
| Exception (what : string).

Inductive outcome (A : Type) : Type :=
| Return (a : A)
| Raise (e : exn).
Arguments Return {A}.
Arguments Raise {A}.

(** A handler runs against the store and leaves it in a new state, also
    when it raises. *)
Definition M (A : Type) : Type := Database -> outcome A * Database.

Definition ret {A : Type} (a : A) : M A := fun db => (Return a, db).

Definition raise {A : Type} (e : exn) : M A := fun db => (Raise e, db).

Definition bind {A B : Type} (m : M A) (k : A -> M B) : M B :=
  fun db =>
    match m db with
    | (Return a, db') => k a db'
    | (Raise e, db') => (Raise e, db')
    end.

(** [try: body  except ... as e: handler e] *)
Definition try_except {A : Type} (body : M A) (handler : exn -> M A) : M A :=
  fun db =>
    match body db with
    | (Return a, db') => (Return a, db')
    | (Raise e, db') => handler e db'
    end.

Declare Scope handler_scope.
Delimit Scope handler_scope with handler.
Notation "x <- m ;; k" := (bind m (fun x => k))
  (at level 100, m at level 99, k at level 200, only parsing) : handler_scope.
Notation "m ;;; k" := (bind m (fun _ => k))
  (at level 100, k at level 200, only parsing) : handler_scope.
Open Scope handler_scope.

(** Every driver call fails the same way when the store is unreachable. *)
Definition storage_error : exn := Exception "ServerSelectionTimeoutError".

Definition with_store {A : Type} (op : list Doc -> A * list Doc) : M A :=
  fun db =>
    if reachable db
    then let '(a, docs) := op (registrations db) in
         (Return a, with_registrations docs db)
    else (Raise storage_error, db).

(** The fields a [$set] update of this program assigns. *)
Inductive field_set : Type :=
| set_order_id (v : string)
| set_payment_status (v : string)
| set_payment_id (v : string).

Definition apply_set (doc : Doc) (f : field_set) : Doc :=
  match f with
  | set_order_id v => Registration.with_order_id (Some v) doc
  | set_payment_status v => Registration.with_payment_status v doc
  | set_payment_id v => Registration.with_payment_id (Some v) doc
  end.

(** First document whose [id] field equals [rid]. *)
Fixpoint find_first (rid : string) (docs : list Doc) : option Doc :=
  match docs with
  | [] => None
  | d :: rest =>
      if String.eqb (Registration.id d) rid then Some d else find_first rid rest
  end.

(** [$set] applied to the first document whose [id] equals [rid]; a
    collection without such a document is left as it is. *)
Fixpoint update_first (rid : string) (sets : list field_set) (docs : list Doc)
  : list Doc :=
  match docs with
  | [] => []
  | d :: rest =>
      if String.eqb (Registration.id d) rid
      then fold_left apply_set sets d :: rest
      else d :: update_first rid sets rest
  end.

(** [await db.registrations.insert_one(doc)] *)
Definition insert_one (doc : Doc) : M unit :=
  with_store (fun docs => (tt, (docs ++ [doc])%list)).

(** [await db.registrations.find_one({"id": rid}, {"_id": 0})] *)
Definition find_one (rid : string) : M (option Doc) :=
  with_store (fun docs => (find_first rid docs, docs)).

(** [await db.registrations.update_one({"id": rid}, {"$set": sets})] *)
Definition update_one (rid : string) (sets : list field_set) : M unit :=
  with_store (fun docs => (tt, update_first rid sets docs)).

(** [await db.registrations.find({}, {"_id": 0}).to_list(n)] *)
Definition find_to_list (n : nat) : M (list Doc) :=
  with_store (fun docs => (firstn n docs, docs)).

(** ** The payment gateway *)

Module OrderParams.
Record t : Type := mk {
  amount : Z;
  currency : string;
  payment_capture : Z;
  notes_registration_id : string
}.
End OrderParams.

Module Order.
Record t : Type := mk {
  id : string;
  amount : Z;
  currency : string
}.
End Order.

(** What one call of [razorpay_client.order.create] answers: an order,
    or an exception of the client library. *)
Definition Gateway : Type := OrderParams.t -> outcome Order.t.

(** ** Responses *)

Module OrderResponse.
Record t : Type := mk {
  order_id : string;
  amount : Z;
  currency : string;
  key_id : string
}.
End OrderResponse.

Module VerifyResponse.
Record t : Type := mk {
  status : string;
  message : string
}.
End VerifyResponse.

(** ** API routes *)

Section Routes.

Context `{DateTime}.

(** The [Registration] built from the dumped input and [amount], the
    two default factories having produced [uuid4] and [now]. *)
Definition new_registration (input_data : RegistrationCreate.t)
    (uuid4 : string) (now : datetime) (amount : Z) : Registration.t datetime :=
  Registration.mk uuid4
    (RegistrationCreate.full_name input_data)
    (RegistrationCreate.email input_data)
    (RegistrationCreate.phone input_data)
    (RegistrationCreate.category input_data)
    (RegistrationCreate.organization input_data)
    (RegistrationCreate.designation input_data)
    (RegistrationCreate.address input_data)
    (RegistrationCreate.accommodation_required input_data)
    (RegistrationCreate.room_type input_data)
    (RegistrationCreate.check_in_date input_data)
    (RegistrationCreate.check_out_date input_data)
    amount "pending" None None now.

(** The amount of [create_registration], in INR, before conversion. *)
Definition calculate_amount (input_data : RegistrationCreate.t) : Z :=
  let amount := dict_get PRICING (RegistrationCreate.category input_data) 0 in
  if RegistrationCreate.accommodation_required input_data
     && truthy_opt (RegistrationCreate.room_type input_data)
  then
    let room_cost :=
      dict_get_opt ROOM_PRICING (RegistrationCreate.room_type input_data) 0 in
    let nights := 2 in
    amount + room_cost * nights
  else amount.

(** [POST /registration] *)
Definition create_registration (input_data : RegistrationCreate.t)
    (uuid4 : string) (now : datetime) : M (Registration.t datetime) :=
  let amount := calculate_amount input_data in
  let registration := new_registration input_data uuid4 now (amount * 100) in
  let doc :=
    Registration.with_created_at
      (isoformat (Registration.created_at registration)) registration in
  insert_one doc ;;;
  ret registration.

(** The [Registration] built from a document whose [created_at] went
    through [fromisoformat]. *)
Definition load_registration (doc : Doc) : M (Registration.t datetime) :=
  match fromisoformat (Registration.created_at doc) with
  | Some t => ret (Registration.with_created_at t doc)
  | None => raise (Exception "ValueError")
  end.

(** [GET /registration/{registration_id}] *)
Definition get_registration (registration_id : string)
  : M (Registration.t datetime) :=
  doc <- find_one registration_id ;;
  match doc with
  | None => raise (HTTPException 404 "Registration not found")
  | Some doc => load_registration doc
  end.

Fixpoint load_registrations (docs : list Doc) : M (list (Registration.t datetime)) :=
  match docs with
  | [] => ret []
  | d :: rest =>
      r <- load_registration d ;;
      rs <- load_registrations rest ;;
      ret (r :: rs)
  end.

(** [GET /registrations] *)
Definition get_registrations : M (list (Registration.t datetime)) :=
  registrations <- find_to_list 1000 ;;
  load_registrations registrations.

End Routes.

(** The dictionary handed to [razorpay_client.order.create]. *)
Definition order_params (order_data : OrderCreate.t) : OrderParams.t :=
  OrderParams.mk
    (OrderCreate.amount order_data)
    (OrderCreate.currency order_data)
    1
    (OrderCreate.registration_id order_data).

(** One gateway call: its answer, the store untouched. *)
Definition call_gateway (order_create : Gateway) (params : OrderParams.t)
  : M Order.t :=
  fun db => (order_create params, db).

(** [POST /create-order] *)
Definition create_order (cfg : Config) (order_create : Gateway)
    (order_data : OrderCreate.t) : M OrderResponse.t :=
  match razorpay_client cfg with
  | None => raise (HTTPException 500 "Payment gateway not configured")
  | Some _ =>
      try_except
        (order <- call_gateway order_create (order_params order_data) ;;
         update_one (OrderCreate.registration_id order_data)
                    [set_order_id (Order.id order)] ;;;
         ret (OrderResponse.mk (Order.id order) (Order.amount order)
                               (Order.currency order) (razorpay_key_id cfg)))
        (fun e => raise (HTTPException 500 "Failed to create payment order"))
  end.

(** [POST /verify-payment] *)
Definition verify_payment (cfg : Config) (payment_data : PaymentVerification.t)
  : M VerifyResponse.t :=
  match razorpay_client cfg with
  | None => raise (HTTPException 500 "Payment gateway not configured")
  | Some _ =>
      try_except
        (let message :=
           PaymentVerification.razorpay_order_id payment_data
             +:+ "|" +:+ PaymentVerification.razorpay_payment_id payment_data in
         let generated_signature :=
           hmac_sha256_hexdigest (razorpay_key_secret cfg) message in
         if negb (String.eqb generated_signature
                    (PaymentVerification.razorpay_signature payment_data))
         then raise (HTTPException 400 "Invalid payment signature")
         else
           update_one (PaymentVerification.registration_id payment_data)
             [ set_payment_status "completed";
               set_payment_id (PaymentVerification.razorpay_payment_id payment_data) ] ;;;
           ret (VerifyResponse.mk "success" "Payment verified successfully"))
        (fun e =>
           match e with
           | HTTPException _ _ => raise e
           | Exception _ => raise (HTTPException 500 "Payment verification failed")
           end)
  end.

(** ** The service as a transition system *)

Section Service.

Context `{DateTime}.

Inductive request : Type :=
| CreateRegistration (input_data : RegistrationCreate.t)
                     (uuid4 : string) (now : datetime)
| GetRegistration (registration_id : string)
| GetRegistrations
| CreateOrder (order_create : Gateway) (order_data : OrderCreate.t)
| VerifyPayment (payment_data : PaymentVerification.t).

Inductive response : Type :=
| RegistrationBody (r : Registration.t datetime)
| RegistrationsBody (rs : list (Registration.t datetime))
| OrderBody (o : OrderResponse.t)
| VerifyBody (v : VerifyResponse.t).

Definition handle (cfg : Config) (req : request) : M response :=
  match req with
  | CreateRegistration input_data uuid4 now =>
      r <- create_registration input_data uuid4 now ;; ret (RegistrationBody r)
  | GetRegistration registration_id =>
      r <- get_registration registration_id ;; ret (RegistrationBody r)
  | GetRegistrations =>
      rs <- get_registrations ;; ret (RegistrationsBody rs)
  | CreateOrder order_create order_data =>
      o <- create_order cfg order_create order_data ;; ret (OrderBody o)
  | VerifyPayment payment_data =>
      v <- verify_payment cfg payment_data ;; ret (VerifyBody v)
  end.

(** One transition: a request is served, or the store becomes
    reachable or unreachable. *)
Inductive step (cfg : Config) : Database -> Database -> Prop :=
| step_request (req : request) (db : Database) :
    step cfg db (snd (handle cfg req db))
| step_reachability (up : bool) (db : Database) :
    step cfg db {| reachable := up; registrations := registrations db |}.

End Service.

(** A [datetime] kept as its ISO-8601 text. *)
Definition text_datetime : DateTime :=
  {| datetime := string; isoformat := fun t => t; fromisoformat := Some |}.

(** ** The specification's pricing formula *)

(** [computeAmount] as the specification words it: the base fee of the
    category, plus twice the nightly rate when accommodation is
    requested and a room type is given, times 100; a key outside a
    table counts for zero. *)
Definition computeAmount_spec (category : string)
    (accommodationRequired : bool) (roomType : option string) : Z :=
  (default 0 (PRICING !! category)
   + match accommodationRequired, roomType with
     | true, Some room => default 0 (ROOM_PRICING !! room) * 2
     | _, _ => 0
     end) * 100.

(** ** Signatures *)

(** The signature the gateway issues for an order and a payment. *)
Definition expected_signature (cfg : Config) (orderId paymentId : string) : string :=
  hmac_sha256_hexdigest (razorpay_key_secret cfg) (orderId +:+ "|" +:+ paymentId).

(** [s] with the character at position [i] replaced by [c]. *)
Fixpoint alter_char (i : nat) (c : ascii) (s : string) : string :=
  match s with
  | EmptyString => EmptyString
  | String a s' =>
      match i with
      | O => String c s'
      | S i' => String a (alter_char i' c s')
      end
  end.

Definition lower_hex_char (c : ascii) : bool :=
  existsb (Ascii.eqb c) (list_ascii_of_string "0123456789abcdef").

(** The registration once its payment is recorded. *)
Definition completed (paymentId : string) (doc : Doc) : Doc :=
  Registration.with_payment_id (Some paymentId)
    (Registration.with_payment_status "completed" doc).

Definition verify_success : VerifyResponse.t :=
  VerifyResponse.mk "success" "Payment verified successfully".

Definition SignatureMismatch : exn :=
  HTTPException 400 "Invalid payment signature".

Definition GatewayNotConfigured : exn :=
  HTTPException 500 "Payment gateway not configured".

Definition VerificationFailed : exn :=
  HTTPException 500 "Payment verification failed".

(** Both gateway credentials are present in the environment. *)
Definition configured (cfg : Config) : Prop :=
  razorpay_key_id cfg <> "" /\ razorpay_key_secret cfg <> "".

(** The supplied signature is the digest computed for the supplied order
    and payment ids. *)
Definition signed_by (cfg : Config) (payment_data : PaymentVerification.t) : Prop :=
  PaymentVerification.razorpay_signature payment_data
  = expected_signature cfg
      (PaymentVerification.razorpay_order_id payment_data)
      (PaymentVerification.razorpay_payment_id payment_data).

(** The store after a run of verification calls. *)
Definition after_verifications (cfg : Config)
    (calls : list PaymentVerification.t) (db : Database) : Database :=
  fold_left (fun d p => snd (verify_payment cfg p d)) calls db.

Section Effects.

Context `{DateTime}.

(** What serving one request does to the collection. *)
Inductive effect (cfg : Config) (req : request) (db : Database)
  : list Doc -> Prop :=
| effect_none :
    effect cfg req db (registrations db)
| effect_insert (input_data : RegistrationCreate.t) (uuid4 : string)
    (now : datetime) (amount : Z) :
    req = CreateRegistration input_data uuid4 now ->
    effect cfg req db
      (registrations db
         ++ [Registration.with_created_at (isoformat now)
               (new_registration input_data uuid4 now amount)])%list
| effect_order (order_create : Gateway) (order_data : OrderCreate.t)
    (orderId : string) :
    req = CreateOrder order_create order_data ->
    effect cfg req db
      (update_first (OrderCreate.registration_id order_data)
         [set_order_id orderId] (registrations db))
| effect_payment (payment_data : PaymentVerification.t) :
    req = VerifyPayment payment_data ->
    configured cfg ->
    signed_by cfg payment_data ->
    fst (handle cfg req db) = Return (VerifyBody verify_success) ->
    effect cfg req db
      (update_first (PaymentVerification.registration_id payment_data)
         [ set_payment_status "completed";
           set_payment_id (PaymentVerification.razorpay_payment_id payment_data) ]
         (registrations db)).

End Effects.

(** ** Sample data *)

Module Sample.

Definition cfg : Config :=
  {| razorpay_key_id := "rzp_test_key"; razorpay_key_secret := "test_secret" |}.

Definition cfg_absent : Config :=
  {| razorpay_key_id := ""; razorpay_key_secret := "" |}.

Definition input_data : RegistrationCreate.t :=
  RegistrationCreate.mk "Dr. Test User" "test.doctor@example.com"
    "+91 9876543210" "delegate_early_bird" (Some "Test Hospital")
    (Some "Consultant") None false None None None.

(** A category and a room type that neither table lists. *)
Definition input_unknown : RegistrationCreate.t :=
  RegistrationCreate.mk "Dr. Test User" "test.doctor@example.com"
    "+91 9876543210" "vip" None None None true (Some "penthouse") None None.

Definition input_suite : RegistrationCreate.t :=
  RegistrationCreate.mk "Dr. Test User" "test.doctor@example.com"
    "+91 9876543210" "student_regular" None None None true (Some "suite")
    (Some "2026-02-01") (Some "2026-02-06").

Definition now : string := "2026-01-15T10:30:00+00:00".

Definition empty_db : Database := {| reachable := true; registrations := [] |}.

(** The document of a registration created from [input_data]. *)
Definition registration : Doc :=
  @new_registration text_datetime input_data "reg-1" now 1200000.

Definition db : Database :=
  {| reachable := true; registrations := [registration] |}.

(** A gateway that opens the order it is asked for. *)
Definition echo_gateway : Gateway :=
  fun params =>
    Return (Order.mk "order_1" (OrderParams.amount params)
              (OrderParams.currency params)).

Definition order_data : OrderCreate.t := OrderCreate.mk 100 "INR" "reg-1".

Definition signature_1 : string :=
  "444ab3353f39d9a6cd042ce01e598f3a2819f46159b58f0ff40d4eed15d8e158".

Definition signature_2 : string :=
  "c66b65112a06a997d28de56faf1f474a27f59c87fd1299f55840129af934466a".

Definition payment_1 : PaymentVerification.t :=
  PaymentVerification.mk "order_1" "pay_1" signature_1 "reg-1".

Definition payment_2 : PaymentVerification.t :=
  PaymentVerification.mk "order_1" "pay_2" signature_2 "reg-1".

(** [signature_1] with its first character altered. *)
Definition payment_forged : PaymentVerification.t :=
  PaymentVerification.mk "order_1" "pay_1"
    "544ab3353f39d9a6cd042ce01e598f3a2819f46159b58f0ff40d4eed15d8e158" "reg-1".

Definition payment_unknown : PaymentVerification.t :=
  PaymentVerification.mk "order_1" "pay_1" signature_1 "no-such-registration".

End Sample.

(** ** The contact form *)

Module ContactMessageCreate.
Record t : Type := mk {
  name : string;
  email : string;
  phone : option string;
  subject : string;
  message : string
}.
End ContactMessageCreate.

Module ContactMessage.
Record t (T : Type) : Type := mk {
  id : string;
  name : string;
  email : string;
  phone : option string;
  subject : string;
  message : string;
  created_at : T
}.
Arguments mk {T}.
Arguments id {T}.
Arguments name {T}.
Arguments email {T}.
Arguments phone {T}.
Arguments subject {T}.
Arguments message {T}.
Arguments created_at {T}.

Definition with_created_at {T U : Type} (c : U) (m : t T) : t U :=
  mk (id m) (name m) (email m) (phone m) (subject m) (message m) c.
End ContactMessage.

Abbreviation ContactDoc := (ContactMessage.t string).

(** The contact handlers touch [db.contact_messages] only: the store as
    they see it. *)
Record ContactDatabase : Type := {
  contacts_reachable : bool;
  contact_messages : list ContactDoc
}.

Section ContactRoutes.

Context `{DateTime}.

(** [POST /contact] *)
Definition submit_contact (input_data : ContactMessageCreate.t)
    (uuid4 : string) (now : datetime) (db : ContactDatabase)
  : outcome (ContactMessage.t datetime) * ContactDatabase :=
  let contact :=
    ContactMessage.mk uuid4
      (ContactMessageCreate.name input_data)
      (ContactMessageCreate.email input_data)
      (ContactMessageCreate.phone input_data)
      (ContactMessageCreate.subject input_data)
      (ContactMessageCreate.message input_data)
      now in
  let doc :=
    ContactMessage.with_created_at
      (isoformat (ContactMessage.created_at contact)) contact in
  if contacts_reachable db
  then (Return contact,
        {| contacts_reachable := contacts_reachable db;
           contact_messages := (contact_messages db ++ [doc])%list |})
  else (Raise storage_error, db).

(** The loop of [get_contacts]: each [created_at] goes through
    [fromisoformat]; the first text it refuses ends the request. *)
Fixpoint load_contacts (contacts : list ContactDoc)
  : outcome (list (ContactMessage.t datetime)) :=
  match contacts with
  | [] => Return []
  | contact :: rest =>
      match fromisoformat (ContactMessage.created_at contact) with
      | None => Raise (Exception "ValueError")
      | Some t =>
          match load_contacts rest with
          | Return loaded =>
              Return (ContactMessage.with_created_at t contact :: loaded)
          | Raise e => Raise e
          end
      end
  end.

(** [GET /contacts] *)
Definition get_contacts (db : ContactDatabase)
  : outcome (list (ContactMessage.t datetime)) * ContactDatabase :=
  if contacts_reachable db
  then (load_contacts (firstn 1000 (contact_messages db)), db)
  else (Raise storage_error, db).

End ContactRoutes.

(** ** The API tester's bookkeeping ([backend_test.py]) *)

Module ConferenceAPITester.

Record result : Type := {
  test : string;
  status : string;
  details : string;
  timestamp : string
}.

(** The counters and the log of a tester; the URLs play no part in them. *)
Record t : Type := {
  tests_run : Z;
  tests_passed : Z;
  test_results : list result
}.

(** [__init__] *)
Definition init : t :=
  {| tests_run := 0; tests_passed := 0; test_results := [] |}.

(** [log_test(name, success, details)], [now] being the clock's answer,
    already in ISO-8601 text. *)
Definition log_test (name : string) (success : bool) (details : string)
    (now : string) (self : t) : t :=
  let tests_run' := tests_run self + 1 in
  let tests_passed' :=
    if success then tests_passed self + 1 else tests_passed self in
  let result :=
    {| test := name;
       status := if success then "PASS" else "FAIL";
       details := details;
       timestamp := now |} in
  {| tests_run := tests_run';
     tests_passed := tests_passed';
     test_results := (test_results self ++ [result])%list |}.

(** One logged call: its arguments and the clock's answer. *)
Definition call : Type := string * bool * string * string.

Definition log_all (calls : list call) (self : t) : t :=
  fold_left
    (fun s c => let '(name, success, details, now) := c in
                log_test name success details now s)
    calls self.

Definition passes (calls : list call) : list call :=
  List.filter (fun c : call => let '(_, success, _, _) := c in success) calls.

End ConferenceAPITester.

(** ** Vocabulary of the further properties *)

(** The text [verify_payment] signs. *)
Definition canonical_message (orderId paymentId : string) : string :=
  orderId +:+ "|" +:+ paymentId.

Definition has_pipe (s : string) : bool :=
  existsb (Ascii.eqb "|"%char) (list_ascii_of_string s).

(** The payment fields agree: pending without a payment id, or completed
    with one. *)
Definition payment_consistent (d : Doc) : Prop :=
  (Registration.payment_status d = "pending" /\ Registration.payment_id d = None)
  \/ (Registration.payment_status d = "completed"
      /\ exists paymentId : string, Registration.payment_id d = Some paymentId).

(** The amounts the two price tables can produce, in paise. *)
Definition amount_in_range (d : Doc) : Prop :=
  0 <= Registration.amount d <= 4200000 /\ (100 | Registration.amount d).

(** A document and the model [get_registration] builds from it. *)
Definition loaded_from `{DateTime} (doc : Doc) (r : Registration.t datetime) : Prop :=
  exists t : datetime,
    fromisoformat (Registration.created_at doc) = Some t
    /\ r = Registration.with_created_at t doc.

Definition contact_loaded_from `{DateTime} (doc : ContactDoc)
    (m : ContactMessage.t datetime) : Prop :=
  exists t : datetime,
    fromisoformat (ContactMessage.created_at doc) = Some t
    /\ m = ContactMessage.with_created_at t doc.

(** Sample data of the further properties. *)
Module Sample2.

Definition order : Order.t := Order.mk "order_1" 1200000 "INR".

Definition gateway : Gateway := fun _ => Return order.

Definition failing_gateway : Gateway :=
  fun _ => Raise (Exception "BadRequestError").

Definition contact_input : ContactMessageCreate.t :=
  ContactMessageCreate.mk "Test User" "test@example.com"
    (Some "+91 9876543210") "Test Subject"
    "This is a test message from automated testing.".

Definition empty_contacts : ContactDatabase :=
  {| contacts_reachable := true; contact_messages := [] |}.

(** A signature issued for order [a|b] and payment [c]. *)
Definition payment_shifted : PaymentVerification.t :=
  PaymentVerification.mk "a" "b|c"
    (hmac_sha256_hexdigest "test_secret" "a|b|c") "reg-1".

End Sample2.

(** * Properties *)

(** ** The store *)

Lemma apply_sets_id (sets : list field_set) (d : Doc) :
  Registration.id (fold_left apply_set sets d) = Registration.id d.
Proof.
  revert d. induction sets as [|f sets IH]; intros d; simpl; [reflexivity|].
  rewrite IH. destruct f; reflexivity.
Qed.

Lemma apply_sets_amount (sets : list field_set) (d : Doc) :
  Registration.amount (fold_left apply_set sets d) = Registration.amount d.
Proof.
  revert d. induction sets as [|f sets IH]; intros d; simpl; [reflexivity|].
  rewrite IH. destruct f; reflexivity.
Qed.

Lemma find_first_update_first (rid : string) (sets : list field_set)
    (docs : list Doc) (d : Doc) :
  find_first rid docs = Some d ->
  find_first rid (update_first rid sets docs) = Some (fold_left apply_set sets d).
Proof.
  induction docs as [|x rest IH]; simpl; [discriminate|].
  destruct (String.eqb (Registration.id x) rid) eqn:E; intros Hd; simpl.
  - injection Hd as <-. rewrite apply_sets_id, E. reflexivity.
  - rewrite E. auto.
Qed.

Lemma update_first_absent (rid : string) (sets : list field_set) (docs : list Doc) :
  find_first rid docs = None -> update_first rid sets docs = docs.
Proof.
  induction docs as [|x rest IH]; simpl; [reflexivity|].
  destruct (String.eqb (Registration.id x) rid); [discriminate|].
  intros Hn. rewrite IH; auto.
Qed.

Lemma find_first_other (rid rid' : string) (sets : list field_set) (docs : list Doc) :
  rid' <> rid ->
  find_first rid' (update_first rid sets docs) = find_first rid' docs.
Proof.
  intros Hne. induction docs as [|x rest IH]; simpl; [reflexivity|].
  destruct (String.eqb (Registration.id x) rid) eqn:E; simpl.
  - rewrite apply_sets_id.
    apply String.eqb_eq in E.
    destruct (String.eqb (Registration.id x) rid') eqn:E'; [|reflexivity].
    apply String.eqb_eq in E'. congruence.
  - rewrite IH. reflexivity.
Qed.

(** An update touches at most the documents carrying the id, position by
    position. *)
Lemma update_first_lookup (rid : string) (sets : list field_set)
    (docs : list Doc) (i : nat) (d : Doc) :
  docs !! i = Some d ->
  update_first rid sets docs !! i = Some d
  \/ (Registration.id d = rid
      /\ update_first rid sets docs !! i = Some (fold_left apply_set sets d)).
Proof.
  revert i. induction docs as [|x rest IH]; intros i; [discriminate|].
  simpl. destruct (String.eqb (Registration.id x) rid) eqn:E.
  - destruct i as [|i]; simpl; [|auto].
    intros [= <-]. right. apply String.eqb_eq in E. auto.
  - destruct i as [|i]; simpl; [auto|]. apply IH.
Qed.

Lemma find_first_app_fresh (rid : string) (docs : list Doc) (d : Doc) :
  find_first rid docs = None ->
  Registration.id d = rid ->
  find_first rid (docs ++ [d]) = Some d.
Proof.
  intros Hn Hid. induction docs as [|x rest IH]; simpl in *.
  - rewrite Hid, String.eqb_refl. reflexivity.
  - destruct (String.eqb (Registration.id x) rid); [discriminate|]. auto.
Qed.

(** ** Pricing *)

Section Pricing.

Context `{DateTime}.

Lemma calculate_amount_spec (input_data : RegistrationCreate.t) :
  calculate_amount input_data * 100
  = computeAmount_spec (RegistrationCreate.category input_data)
      (RegistrationCreate.accommodation_required input_data)
      (RegistrationCreate.room_type input_data).
Proof.
  unfold calculate_amount, computeAmount_spec, dict_get_opt, dict_get.
  destruct (RegistrationCreate.accommodation_required input_data); simpl;
    [|f_equal; lia].
  destruct (RegistrationCreate.room_type input_data) as [room|]; simpl;
    [|f_equal; lia].
  destruct room as [|c room]; simpl; [|reflexivity].
  replace (ROOM_PRICING !! "") with (@None Z) by (vm_compute; reflexivity).
  simpl. f_equal; lia.
Qed.

Lemma create_registration_run (input_data : RegistrationCreate.t)
    (uuid4 : string) (now : datetime) (db : Database) :
  reachable db = true ->
  let registration :=
    new_registration input_data uuid4 now (calculate_amount input_data * 100) in
  create_registration input_data uuid4 now db
  = (Return registration,
     with_registrations
       (registrations db
          ++ [Registration.with_created_at (isoformat now) registration])%list db).
Proof.
  intros Hup. unfold create_registration, bind, insert_one, with_store, ret.
  rewrite Hup. reflexivity.
Qed.

(** C5. The amount of a created registration is
    [(table[category] + (roomRate[roomType] * 2 if accommodation is
    requested and a room type is given, else 0)) * 100]: for a category
    of the pricing table without accommodation it is the fee times 100,
    with accommodation and a room of the room table it is
    [(fee + rate * 2) * 100]; the formula reads the category, the
    accommodation flag and the room type only, so the two nights never
    come from the check-in and check-out dates. *)
Theorem create_registration_amount (input_data : RegistrationCreate.t)
    (uuid4 : string) (now : datetime) (db : Database) :
  reachable db = true ->
  exists (r : Registration.t datetime) (db' : Database),
    create_registration input_data uuid4 now db = (Return r, db')
    /\ Registration.amount r
       = computeAmount_spec (RegistrationCreate.category input_data)
           (RegistrationCreate.accommodation_required input_data)
           (RegistrationCreate.room_type input_data)
    /\ (forall fee : Z,
          PRICING !! RegistrationCreate.category input_data = Some fee ->
          RegistrationCreate.accommodation_required input_data = false ->
          Registration.amount r = fee * 100)
    /\ (forall (fee rate : Z) (room : string),
          PRICING !! RegistrationCreate.category input_data = Some fee ->
          RegistrationCreate.accommodation_required input_data = true ->
          RegistrationCreate.room_type input_data = Some room ->
          ROOM_PRICING !! room = Some rate ->
          Registration.amount r = (fee + rate * 2) * 100).
Proof.
  intros Hup. eexists _, _. split; [apply create_registration_run, Hup|].
  simpl. rewrite calculate_amount_spec. unfold computeAmount_spec.
  split; [reflexivity|]. split.
  - intros fee Hfee Hacc. rewrite Hfee, Hacc. simpl. lia.
  - intros fee rate room Hfee Hacc Hroom Hrate.
    rewrite Hfee, Hacc, Hroom, Hrate. reflexivity.
Qed.

(** C6. A category outside the pricing table and a room type outside
    the room table each count for zero in the amount, and the
    registration is created and stored all the same. *)
Theorem unknown_keys_contribute_zero (input_data : RegistrationCreate.t)
    (uuid4 : string) (now : datetime) (db : Database) :
  reachable db = true ->
  exists (r : Registration.t datetime) (db' : Database),
    create_registration input_data uuid4 now db = (Return r, db')
    /\ registrations db'
       = (registrations db ++ [Registration.with_created_at (isoformat now) r])%list
    /\ (PRICING !! RegistrationCreate.category input_data = None ->
        Registration.amount r
        = match RegistrationCreate.accommodation_required input_data,
                RegistrationCreate.room_type input_data with
          | true, Some room => default 0 (ROOM_PRICING !! room) * 2
          | _, _ => 0
          end * 100)
    /\ (forall room : string,
          RegistrationCreate.room_type input_data = Some room ->
          ROOM_PRICING !! room = None ->
          Registration.amount r
          = default 0 (PRICING !! RegistrationCreate.category input_data) * 100)
    /\ (forall room : string,
          PRICING !! RegistrationCreate.category input_data = None ->
          RegistrationCreate.room_type input_data = Some room ->
          ROOM_PRICING !! room = None ->
          Registration.amount r = 0).
Proof.
  intros Hup. eexists _, _. split; [apply create_registration_run, Hup|].
  simpl. split; [reflexivity|].
  rewrite calculate_amount_spec. unfold computeAmount_spec.
  split; [|split].
  - intros Hcat. rewrite Hcat. reflexivity.
  - intros room Hroom Hrate. rewrite Hroom, Hrate.
    destruct (RegistrationCreate.accommodation_required input_data); simpl; lia.
  - intros room Hcat Hroom Hrate. rewrite Hcat, Hroom, Hrate.
    destruct (RegistrationCreate.accommodation_required input_data); reflexivity.
Qed.

Lemma get_registration_run (rid : string) (db : Database) (doc : Doc)
    (t : datetime) :
  reachable db = true ->
  find_first rid (registrations db) = Some doc ->
  fromisoformat (Registration.created_at doc) = Some t ->
  get_registration rid db = (Return (Registration.with_created_at t doc), db).
Proof.
  intros Hup Hfind Hiso.
  unfold get_registration, bind, find_one, with_store.
  rewrite Hup, Hfind. unfold load_registration. rewrite Hiso.
  destruct db; simpl in *; reflexivity.
Qed.

(** C7. A registration created with category [delegate_early_bird] and
    no accommodation has amount 1200000, and fetching it by its id
    returns the record that the creation returned, that amount
    included. The identifier drawn for it is one no stored registration
    carries, and the creation time is one its ISO-8601 text parses back
    to. *)
Theorem create_then_get_registration (input_data : RegistrationCreate.t)
    (uuid4 : string) (now : datetime) (db : Database) :
  RegistrationCreate.category input_data = "delegate_early_bird" ->
  RegistrationCreate.accommodation_required input_data = false ->
  reachable db = true ->
  find_first uuid4 (registrations db) = None ->
  fromisoformat (isoformat now) = Some now ->
  exists (r : Registration.t datetime) (db' : Database),
    create_registration input_data uuid4 now db = (Return r, db')
    /\ Registration.amount r = 1200000
    /\ Registration.id r = uuid4
    /\ Registration.payment_status r = "pending"
    /\ get_registration uuid4 db' = (Return r, db').
Proof.
  intros Hcat Hacc Hup Hfresh Hiso.
  eexists _, _. split; [apply create_registration_run, Hup|].
  split; [|split; [reflexivity|split; [reflexivity|]]].
  - simpl. rewrite calculate_amount_spec, Hcat, Hacc. reflexivity.
  - set (r := new_registration _ _ _ _).
    rewrite (get_registration_run uuid4 _
               (Registration.with_created_at (isoformat now) r) now);
      [reflexivity|exact Hup| |exact Hiso].
    apply find_first_app_fresh; [exact Hfresh|reflexivity].
Qed.

End Pricing.

(** ** Configuration *)

Lemma truthy_nonempty (s : string) : truthy s = true <-> s <> "".
Proof. destruct s; simpl; split; congruence. Qed.

Lemma razorpay_client_configured (cfg : Config) :
  configured cfg <-> razorpay_client cfg <> None.
Proof.
  unfold configured, razorpay_client.
  rewrite <- !truthy_nonempty.
  destruct (truthy (razorpay_key_id cfg)), (truthy (razorpay_key_secret cfg));
    simpl; split; try discriminate; try tauto; intros [? ?]; discriminate.
Qed.

Lemma razorpay_client_absent (cfg : Config) :
  razorpay_key_id cfg = "" \/ razorpay_key_secret cfg = "" ->
  razorpay_client cfg = None.
Proof.
  unfold razorpay_client. intros [-> | ->]; simpl; [reflexivity|].
  rewrite andb_false_r. reflexivity.
Qed.

(** ** Digests *)

Lemma hex_digit_lower (n : Z) : lower_hex_char (hex_digit n) = true.
Proof.
  unfold hex_digit. generalize (Z.to_nat n) as k. intros k.
  do 17 (destruct k as [|k]; [reflexivity|]). reflexivity.
Qed.

Lemma hex_lower (bs : list Z) :
  forallb lower_hex_char (list_ascii_of_string (hex bs)) = true.
Proof.
  induction bs as [|b bs IH]; [reflexivity|].
  cbn [hex list_ascii_of_string forallb].
  rewrite !hex_digit_lower, IH. reflexivity.
Qed.

Lemma hex_length (bs : list Z) : String.length (hex bs) = (2 * length bs)%nat.
Proof. induction bs as [|b bs IH]; simpl; [reflexivity|]. rewrite IH. lia. Qed.

Lemma compress_length (h block : list Z) :
  length h = 8%nat -> length (SHA256.compress h block) = 8%nat.
Proof.
  intros Hh. unfold SHA256.compress.
  rewrite length_map, length_combine, Hh. reflexivity.
Qed.

Lemma sha256_digest_length (msg : list Z) : length (SHA256.digest msg) = 32%nat.
Proof.
  unfold SHA256.digest.
  generalize (SHA256.chunks (length (SHA256.pad msg)) 64 (SHA256.pad msg)).
  intros blocks.
  assert (Hlen : length (fold_left SHA256.compress blocks SHA256.H0) = 8%nat).
  { generalize SHA256.H0 (eq_refl : length SHA256.H0 = 8%nat).
    induction blocks as [|b blocks IH]; intros h Hh; simpl; [exact Hh|].
    apply IH, compress_length, Hh. }
  revert Hlen. generalize (fold_left SHA256.compress blocks SHA256.H0).
  intros l Hl.
  do 9 (destruct l as [|? l]; try discriminate). reflexivity.
Qed.

(** The signature is 64 characters among [0-9a-f]. *)
Lemma expected_signature_lower_hex (cfg : Config) (orderId paymentId : string) :
  String.length (expected_signature cfg orderId paymentId) = 64%nat
  /\ forallb lower_hex_char
       (list_ascii_of_string (expected_signature cfg orderId paymentId)) = true.
Proof.
  unfold expected_signature, hmac_sha256_hexdigest. split.
  - rewrite hex_length. unfold HMAC.digest. rewrite sha256_digest_length.
    reflexivity.
  - apply hex_lower.
Qed.

Lemma alter_char_differs (i : nat) (a c : ascii) (s : string) :
  String.get i s = Some a -> c <> a -> alter_char i c s <> s.
Proof.
  revert i. induction s as [|x s IH]; intros i; [discriminate|].
  destruct i as [|i]; simpl.
  - intros [= ->] Hne Heq. injection Heq as Heq. congruence.
  - intros Hget Hne Heq. injection Heq as Heq. exact (IH i Hget Hne Heq).
Qed.

(** ** Payment verification *)

Lemma verify_payment_unconfigured (cfg : Config)
    (payment_data : PaymentVerification.t) (db : Database) :
  razorpay_client cfg = None ->
  verify_payment cfg payment_data db = (Raise GatewayNotConfigured, db).
Proof. intros Hc. unfold verify_payment. rewrite Hc. reflexivity. Qed.

Lemma verify_payment_mismatch (cfg : Config)
    (payment_data : PaymentVerification.t) (db : Database) :
  configured cfg ->
  ~ signed_by cfg payment_data ->
  verify_payment cfg payment_data db = (Raise SignatureMismatch, db).
Proof.
  intros Hc Hsig. apply razorpay_client_configured in Hc.
  unfold verify_payment. destruct (razorpay_client cfg); [|congruence].
  unfold try_except.
  destruct (String.eqb _ _) eqn:E; [|reflexivity].
  apply String.eqb_eq in E. exfalso. apply Hsig. unfold signed_by. symmetry.
  exact E.
Qed.

Lemma verify_payment_match (cfg : Config)
    (payment_data : PaymentVerification.t) (db : Database) :
  configured cfg ->
  signed_by cfg payment_data ->
  reachable db = true ->
  verify_payment cfg payment_data db
  = (Return verify_success,
     with_registrations
       (update_first (PaymentVerification.registration_id payment_data)
          [ set_payment_status "completed";
            set_payment_id (PaymentVerification.razorpay_payment_id payment_data) ]
          (registrations db)) db).
Proof.
  intros Hc Hsig Hup. apply razorpay_client_configured in Hc.
  unfold verify_payment. destruct (razorpay_client cfg); [|congruence].
  unfold try_except. unfold signed_by, expected_signature in Hsig.
  rewrite Hsig, String.eqb_refl. simpl.
  unfold bind, update_one, with_store. rewrite Hup. reflexivity.
Qed.

Lemma verify_payment_storage_failure (cfg : Config)
    (payment_data : PaymentVerification.t) (db : Database) :
  configured cfg ->
  signed_by cfg payment_data ->
  reachable db = false ->
  verify_payment cfg payment_data db = (Raise VerificationFailed, db).
Proof.
  intros Hc Hsig Hup. apply razorpay_client_configured in Hc.
  unfold verify_payment. destruct (razorpay_client cfg); [|congruence].
  unfold try_except. unfold signed_by, expected_signature in Hsig.
  rewrite Hsig, String.eqb_refl. simpl.
  unfold bind, update_one, with_store. rewrite Hup. reflexivity.
Qed.

(** C1. With the gateway configured and the store reachable, [verify]
    with the signature equal to the lowercase-hex HMAC-SHA256 digest,
    under the secret, of [orderId|paymentId] succeeds and leaves the
    registration with [payment_status = "completed"] and [payment_id]
    equal to the supplied payment id, its other fields as they were. *)
Theorem verify_payment_correct_signature (cfg : Config)
    (orderId paymentId registrationId : string) (db : Database) (r : Doc) :
  configured cfg ->
  reachable db = true ->
  find_first registrationId (registrations db) = Some r ->
  let signature :=
    hmac_sha256_hexdigest (razorpay_key_secret cfg) (orderId +:+ "|" +:+ paymentId) in
  exists db' : Database,
    verify_payment cfg
      (PaymentVerification.mk orderId paymentId signature registrationId) db
    = (Return verify_success, db')
    /\ find_first registrationId (registrations db') = Some (completed paymentId r)
    /\ Registration.payment_status (completed paymentId r) = "completed"
    /\ Registration.payment_id (completed paymentId r) = Some paymentId
    /\ String.length signature = 64%nat
    /\ forallb lower_hex_char (list_ascii_of_string signature) = true.
Proof.
  intros Hc Hup Hfind signature. eexists. split.
  - apply verify_payment_match; [exact Hc|reflexivity|exact Hup].
  - split; [|split; [reflexivity|split; [reflexivity|]]].
    + simpl. rewrite (find_first_update_first _ _ _ _ Hfind). reflexivity.
    + apply (expected_signature_lower_hex cfg orderId paymentId).
Qed.

Lemma after_verifications_mismatch (cfg : Config)
    (calls : list PaymentVerification.t) (db : Database) :
  configured cfg ->
  Forall (fun p => ~ signed_by cfg p) calls ->
  after_verifications cfg calls db = db.
Proof.
  intros Hc Hall. unfold after_verifications.
  induction Hall as [|p calls Hp Hall IH]; simpl; [reflexivity|].
  rewrite (verify_payment_mismatch cfg p db Hc Hp). exact IH.
Qed.

(** C2. With the gateway configured, [verify] with a signature that
    differs from the computed digest, one altered character being
    enough, is rejected with [SignatureMismatch] and leaves the store as
    it was, so that any run of such attempts changes nothing; the
    rejection is not the answer given when a valid payment cannot be
    recorded because the store is unreachable. *)
Theorem verify_payment_bad_signature (cfg : Config)
    (payment_data : PaymentVerification.t) (db : Database) :
  configured cfg ->
  PaymentVerification.razorpay_signature payment_data
  <> expected_signature cfg
       (PaymentVerification.razorpay_order_id payment_data)
       (PaymentVerification.razorpay_payment_id payment_data) ->
  verify_payment cfg payment_data db = (Raise SignatureMismatch, db)
  /\ (forall n : nat,
        after_verifications cfg (repeat payment_data n) db = db)
  /\ (forall calls : list PaymentVerification.t,
        Forall (fun p => ~ signed_by cfg p) calls ->
        after_verifications cfg calls db = db)
  /\ (forall (i : nat) (a c : ascii) (orderId paymentId registrationId : string),
        String.get i (expected_signature cfg orderId paymentId) = Some a ->
        c <> a ->
        verify_payment cfg
          (PaymentVerification.mk orderId paymentId
             (alter_char i c (expected_signature cfg orderId paymentId))
             registrationId) db
        = (Raise SignatureMismatch, db))
  /\ (forall (valid : PaymentVerification.t) (down : Database),
        signed_by cfg valid ->
        reachable down = false ->
        verify_payment cfg valid down = (Raise VerificationFailed, down)
        /\ fst (verify_payment cfg valid down)
           <> fst (verify_payment cfg payment_data db)).
Proof.
  intros Hc Hsig.
  assert (Hrej : verify_payment cfg payment_data db = (Raise SignatureMismatch, db))
    by (apply verify_payment_mismatch; assumption).
  split; [exact Hrej|]. split; [|split; [|split]].
  - intros n. apply after_verifications_mismatch; [exact Hc|].
    induction n as [|n IH]; simpl; constructor; [exact Hsig|exact IH].
  - intros calls Hall. apply after_verifications_mismatch; assumption.
  - intros i a c orderId paymentId registrationId Hget Hne.
    apply verify_payment_mismatch; [exact Hc|].
    unfold signed_by; simpl. eapply alter_char_differs; eassumption.
  - intros valid down Hvalid Hdown.
    rewrite (verify_payment_storage_failure cfg valid down Hc Hvalid Hdown), Hrej.
    split; [reflexivity|]. simpl. discriminate.
Qed.

Lemma verify_payment_ignores_store (cfg : Config)
    (payment_data : PaymentVerification.t) (db : Database) (docs : list Doc) :
  fst (verify_payment cfg payment_data (with_registrations docs db))
  = fst (verify_payment cfg payment_data db).
Proof.
  unfold verify_payment. destruct (razorpay_client cfg); [|reflexivity].
  unfold try_except.
  destruct (negb (String.eqb _ _)); [reflexivity|].
  unfold bind, update_one, with_store. simpl.
  destruct (reachable db); reflexivity.
Qed.

(** C9. [verify] does not consult the stored registration: its answer is
    the same whatever documents the store holds, and with a valid
    signature for [orderId|paymentId] it succeeds and marks the
    registration completed also when the registration's stored
    [order_id] is null or another order's. *)
Theorem verify_payment_ignores_stored_order (cfg : Config)
    (payment_data : PaymentVerification.t) (db : Database) :
  (forall docs : list Doc,
     fst (verify_payment cfg payment_data (with_registrations docs db))
     = fst (verify_payment cfg payment_data db))
  /\ (forall r : Doc,
        configured cfg ->
        reachable db = true ->
        signed_by cfg payment_data ->
        find_first (PaymentVerification.registration_id payment_data)
          (registrations db) = Some r ->
        Registration.order_id r
        <> Some (PaymentVerification.razorpay_order_id payment_data) ->
        exists (db' : Database) (d' : Doc),
          verify_payment cfg payment_data db = (Return verify_success, db')
          /\ find_first (PaymentVerification.registration_id payment_data)
               (registrations db')
             = Some (completed
                       (PaymentVerification.razorpay_payment_id payment_data) r)
          /\ find_first (PaymentVerification.registration_id payment_data)
               (registrations db')
             = Some d'
          /\ Registration.payment_status d' = "completed"
          /\ Registration.payment_id d'
             = Some (PaymentVerification.razorpay_payment_id payment_data)
          /\ Registration.order_id d' = Registration.order_id r
          /\ Registration.order_id d'
             <> Some (PaymentVerification.razorpay_order_id payment_data)
          /\ Registration.id d' = Registration.id r
          /\ Registration.amount d' = Registration.amount r).
Proof.
  split; [intros docs; apply verify_payment_ignores_store|].
  intros r Hc Hup Hsig Hfind Hother.
  assert (Hdone :
            find_first (PaymentVerification.registration_id payment_data)
              (update_first (PaymentVerification.registration_id payment_data)
                 [ set_payment_status "completed";
                   set_payment_id
                     (PaymentVerification.razorpay_payment_id payment_data) ]
                 (registrations db))
            = Some (completed
                      (PaymentVerification.razorpay_payment_id payment_data) r)).
  { rewrite (find_first_update_first _ _ _ _ Hfind). reflexivity. }
  eexists _, _. split; [apply verify_payment_match; assumption|].
  split; [exact Hdone|]. split; [exact Hdone|].
  split; [reflexivity|]. split; [reflexivity|]. split; [reflexivity|].
  split; [exact Hother|]. split; reflexivity.
Qed.

(** C10. [verify] with a valid signature and a registration id that no
    stored registration carries answers success and leaves every stored
    registration as it was. *)
Theorem verify_payment_unknown_registration (cfg : Config)
    (payment_data : PaymentVerification.t) (db : Database) :
  configured cfg ->
  reachable db = true ->
  signed_by cfg payment_data ->
  find_first (PaymentVerification.registration_id payment_data) (registrations db)
  = None ->
  verify_payment cfg payment_data db = (Return verify_success, db).
Proof.
  intros Hc Hup Hsig Hnone.
  rewrite verify_payment_match by assumption.
  rewrite update_first_absent by exact Hnone.
  destruct db; reflexivity.
Qed.

(** ** Order issuance *)

Lemma create_order_unconfigured (cfg : Config) (order_create : Gateway)
    (order_data : OrderCreate.t) (db : Database) :
  razorpay_client cfg = None ->
  create_order cfg order_create order_data db = (Raise GatewayNotConfigured, db).
Proof. intros Hc. unfold create_order. rewrite Hc. reflexivity. Qed.

Lemma create_order_issued (cfg : Config) (order_create : Gateway)
    (order_data : OrderCreate.t) (db : Database) (order : Order.t) :
  configured cfg ->
  reachable db = true ->
  order_create (order_params order_data) = Return order ->
  create_order cfg order_create order_data db
  = (Return (OrderResponse.mk (Order.id order) (Order.amount order)
               (Order.currency order) (razorpay_key_id cfg)),
     with_registrations
       (update_first (OrderCreate.registration_id order_data)
          [set_order_id (Order.id order)] (registrations db)) db).
Proof.
  intros Hc Hup Hgw. apply razorpay_client_configured in Hc.
  unfold create_order. destruct (razorpay_client cfg); [|congruence].
  unfold try_except, bind, call_gateway, update_one, with_store.
  rewrite Hgw, Hup. reflexivity.
Qed.

(** C4. With a gateway credential absent, [createOrder] and [verify]
    both fail with [GatewayNotConfigured], a status-500 error, and leave
    the store, hence the registration they name, exactly as it was;
    what the gateway would answer plays no part. *)
Theorem gateway_not_configured (cfg : Config) (order_create : Gateway)
    (order_data : OrderCreate.t) (payment_data : PaymentVerification.t)
    (db : Database) :
  razorpay_key_id cfg = "" \/ razorpay_key_secret cfg = "" ->
  create_order cfg order_create order_data db = (Raise GatewayNotConfigured, db)
  /\ verify_payment cfg payment_data db = (Raise GatewayNotConfigured, db)
  /\ GatewayNotConfigured = HTTPException 500 "Payment gateway not configured".
Proof.
  intros Habsent. apply razorpay_client_absent in Habsent.
  split; [apply create_order_unconfigured, Habsent|].
  split; [apply verify_payment_unconfigured, Habsent|reflexivity].
Qed.

(** ** Transitions *)

Section Transitions.

Context `{DateTime}.

Lemma load_registration_store (doc : Doc) (db : Database) :
  snd (load_registration doc db) = db.
Proof.
  unfold load_registration.
  destruct (fromisoformat (Registration.created_at doc)); reflexivity.
Qed.

Lemma load_registrations_store (docs : list Doc) (db : Database) :
  snd (load_registrations docs db) = db.
Proof.
  induction docs as [|d docs IH]; [reflexivity|].
  simpl. unfold bind at 1.
  pose proof (load_registration_store d db) as Hd.
  destruct (load_registration d db) as [[r|e] db1]; simpl in Hd; subst db1;
    [|reflexivity].
  unfold bind at 1.
  destruct (load_registrations docs db) as [[rs|e] db2]; simpl in IH; subst db2;
    reflexivity.
Qed.

Lemma handle_effect (cfg : Config) (req : request) (db : Database) :
  effect cfg req db (registrations (snd (handle cfg req db))).
Proof.
  destruct req as [input_data uuid4 now|rid| |order_create order_data|payment_data].
  - unfold handle, bind, create_registration, bind, insert_one, with_store.
    destruct (reachable db); simpl; [|constructor].
    eapply effect_insert. reflexivity.
  - unfold handle, bind, get_registration, bind, find_one, with_store.
    destruct (reachable db); simpl; [|constructor].
    destruct (find_first rid (registrations db)) as [doc|]; simpl; [|constructor].
    unfold load_registration.
    destruct (fromisoformat (Registration.created_at doc)); simpl; constructor.
  - unfold handle, bind at 1, get_registrations, bind, find_to_list, with_store.
    destruct (reachable db) eqn:Hup; simpl; [|constructor].
    pose proof (load_registrations_store (firstn 1000 (registrations db))
                  (with_registrations (registrations db) db)) as Hs.
    destruct (load_registrations _ _) as [[rs|e] db1]; simpl in *; subst db1;
      simpl; apply effect_none.
  - destruct (razorpay_client cfg) eqn:Hc.
    + unfold handle, bind, create_order. rewrite Hc.
      unfold try_except, bind, call_gateway, update_one, with_store.
      destruct (order_create (order_params order_data)) as [order|e]; simpl;
        [|constructor].
      destruct (reachable db); simpl; [|constructor].
      eapply effect_order. reflexivity.
    + unfold handle, bind.
      rewrite (create_order_unconfigured _ _ _ _ Hc). constructor.
  - destruct (razorpay_client cfg) eqn:Hc.
    + assert (Hconf : configured cfg)
        by (apply razorpay_client_configured; congruence).
      destruct (String.string_dec
                  (PaymentVerification.razorpay_signature payment_data)
                  (expected_signature cfg
                     (PaymentVerification.razorpay_order_id payment_data)
                     (PaymentVerification.razorpay_payment_id payment_data)))
        as [Hsig|Hsig].
      * destruct (reachable db) eqn:Hup.
        -- unfold handle, bind.
           rewrite (verify_payment_match cfg payment_data db Hconf Hsig Hup).
           simpl. apply effect_payment; try assumption; try reflexivity.
           unfold handle, bind.
           rewrite (verify_payment_match cfg payment_data db Hconf Hsig Hup).
           reflexivity.
        -- unfold handle, bind.
           rewrite (verify_payment_storage_failure cfg payment_data db Hconf Hsig Hup).
           constructor.
      * unfold handle, bind.
        rewrite (verify_payment_mismatch cfg payment_data db Hconf Hsig).
        constructor.
    + unfold handle, bind.
      rewrite (verify_payment_unconfigured _ _ _ Hc). constructor.
Qed.

Lemma effect_lookup (cfg : Config) (req : request) (db : Database)
    (docs' : list Doc) (i : nat) (d : Doc) :
  effect cfg req db docs' ->
  registrations db !! i = Some d ->
  exists d' : Doc,
    docs' !! i = Some d'
    /\ Registration.id d' = Registration.id d
    /\ Registration.amount d' = Registration.amount d
    /\ (Registration.payment_status d' = Registration.payment_status d
        \/ (Registration.payment_status d' = "completed"
            /\ exists payment_data : PaymentVerification.t,
                 req = VerifyPayment payment_data
                 /\ signed_by cfg payment_data
                 /\ fst (handle cfg req db) = Return (VerifyBody verify_success))).
Proof.
  intros Heff Hd.
  destruct Heff as [|input_data uuid4 now amount Hreq
                    |order_create order_data orderId Hreq
                    |payment_data Hreq Hconf Hsig Hres].
  - exists d. auto.
  - exists d. rewrite lookup_app_l by (eapply lookup_lt_Some; exact Hd). auto.
  - destruct (update_first_lookup (OrderCreate.registration_id order_data)
                [set_order_id orderId] _ _ _ Hd) as [Hsame|[_ Hupd]].
    + exists d. auto.
    + eexists. split; [exact Hupd|]. simpl. auto.
  - destruct (update_first_lookup
                (PaymentVerification.registration_id payment_data)
                [ set_payment_status "completed";
                  set_payment_id
                    (PaymentVerification.razorpay_payment_id payment_data) ]
                _ _ _ Hd) as [Hsame|[_ Hupd]].
    + exists d. auto.
    + eexists. split; [exact Hupd|]. simpl.
      split; [reflexivity|]. split; [reflexivity|].
      right. split; [reflexivity|]. exists payment_data. auto.
Qed.

Lemma step_lookup (cfg : Config) (db db' : Database) (i : nat) (d : Doc) :
  step cfg db db' ->
  registrations db !! i = Some d ->
  exists d' : Doc,
    registrations db' !! i = Some d'
    /\ Registration.id d' = Registration.id d
    /\ Registration.amount d' = Registration.amount d
    /\ (Registration.payment_status d = "completed" ->
        Registration.payment_status d' = "completed").
Proof.
  intros Hstep Hd. destruct Hstep as [req db|up db].
  - destruct (effect_lookup cfg req db _ i d (handle_effect cfg req db) Hd)
      as (d' & Hd' & Hid & Ham & Hst).
    exists d'. repeat split; try assumption.
    intros Hdone. destruct Hst as [Heq|[Hnew _]]; congruence.
  - exists d. simpl. auto.
Qed.

Lemma steps_lookup (cfg : Config) (db db' : Database) :
  rtc (step cfg) db db' ->
  forall (i : nat) (d : Doc),
    registrations db !! i = Some d ->
    exists d' : Doc,
      registrations db' !! i = Some d'
      /\ Registration.id d' = Registration.id d
      /\ Registration.amount d' = Registration.amount d
      /\ (Registration.payment_status d = "completed" ->
          Registration.payment_status d' = "completed").
Proof.
  induction 1 as [db|db db1 db2 Hstep _ IH]; intros i d Hd.
  - exists d. auto.
  - destruct (step_lookup cfg db db1 i d Hstep Hd) as (d1 & Hd1 & Hid1 & Ham1 & Hst1).
    destruct (IH i d1 Hd1) as (d2 & Hd2 & Hid2 & Ham2 & Hst2).
    exists d2. repeat split; try congruence. auto.
Qed.

Lemma create_order_ignores_store (cfg : Config) (order_create : Gateway)
    (order_data : OrderCreate.t) (db : Database) (docs : list Doc) :
  fst (create_order cfg order_create order_data (with_registrations docs db))
  = fst (create_order cfg order_create order_data db).
Proof.
  unfold create_order. destruct (razorpay_client cfg); [|reflexivity].
  unfold try_except, bind, call_gateway, update_one, with_store. simpl.
  destruct (order_create (order_params order_data)); [|reflexivity].
  destruct (reachable db); reflexivity.
Qed.

(** C3, amended. The amount of a stored registration is fixed: whatever
    requests are served afterwards, the document keeps its id and its
    amount. [createOrder] does not read it: the order amount handed to
    the gateway is the amount of the request, the answer is the same
    whatever the store holds, and the amount answered is the one the
    gateway reports for the order. *)
Theorem amount_fixed_order_amount_supplied (cfg : Config) :
  (forall (db db' : Database) (i : nat) (d : Doc),
     rtc (step cfg) db db' ->
     registrations db !! i = Some d ->
     exists d' : Doc,
       registrations db' !! i = Some d'
       /\ Registration.id d' = Registration.id d
       /\ Registration.amount d' = Registration.amount d)
  /\ (forall order_data : OrderCreate.t,
        OrderParams.amount (order_params order_data)
        = OrderCreate.amount order_data)
  /\ (forall (order_create : Gateway) (order_data : OrderCreate.t)
             (db : Database) (docs : list Doc),
        fst (create_order cfg order_create order_data (with_registrations docs db))
        = fst (create_order cfg order_create order_data db))
  /\ (forall (order_create : Gateway) (order_data : OrderCreate.t)
             (db : Database) (order : Order.t),
        configured cfg ->
        reachable db = true ->
        order_create (order_params order_data) = Return order ->
        exists db' : Database,
          create_order cfg order_create order_data db
          = (Return (OrderResponse.mk (Order.id order) (Order.amount order)
                       (Order.currency order) (razorpay_key_id cfg)), db')).
Proof.
  split; [|split; [|split]].
  - intros db db' i d Hrun Hd.
    destruct (steps_lookup cfg db db' Hrun i d Hd) as (d' & Hd' & Hid & Ham & _).
    exists d'. auto.
  - reflexivity.
  - intros. apply create_order_ignores_store.
  - intros order_create order_data db order Hc Hup Hgw. eexists.
    apply create_order_issued; assumption.
Qed.

(** C8. A stored registration's [payment_status] changes only in a
    [verify] call whose signature check succeeds, and then to
    [completed]; a registration is created [pending]; once [completed]
    it stays so whatever requests follow; and a second [verify] on the
    completed registration with another validly signed payment id
    succeeds again and overwrites [payment_id], the status staying
    [completed]. *)
Theorem payment_status_transitions (cfg : Config) :
  (forall (input_data : RegistrationCreate.t) (uuid4 : string)
          (now : datetime) (amount : Z),
     Registration.payment_status (new_registration input_data uuid4 now amount)
     = "pending")
  /\ (forall (req : request) (db : Database) (i : nat) (d : Doc),
        registrations db !! i = Some d ->
        exists d' : Doc,
          registrations (snd (handle cfg req db)) !! i = Some d'
          /\ (Registration.payment_status d' = Registration.payment_status d
              \/ (Registration.payment_status d' = "completed"
                  /\ exists payment_data : PaymentVerification.t,
                       req = VerifyPayment payment_data
                       /\ signed_by cfg payment_data
                       /\ fst (handle cfg req db)
                          = Return (VerifyBody verify_success))))
  /\ (forall (db db' : Database) (i : nat) (d : Doc),
        rtc (step cfg) db db' ->
        registrations db !! i = Some d ->
        Registration.payment_status d = "completed" ->
        exists d' : Doc,
          registrations db' !! i = Some d'
          /\ Registration.payment_status d' = "completed")
  /\ (forall (db : Database) (r : Doc) (first second : PaymentVerification.t),
        configured cfg ->
        reachable db = true ->
        signed_by cfg first ->
        signed_by cfg second ->
        PaymentVerification.registration_id second
        = PaymentVerification.registration_id first ->
        find_first (PaymentVerification.registration_id first) (registrations db)
        = Some r ->
        exists (db1 db2 : Database) (d1 d2 : Doc),
          verify_payment cfg first db = (Return verify_success, db1)
          /\ find_first (PaymentVerification.registration_id first)
               (registrations db1)
             = Some (completed (PaymentVerification.razorpay_payment_id first) r)
          /\ verify_payment cfg second db1 = (Return verify_success, db2)
          /\ find_first (PaymentVerification.registration_id first)
               (registrations db2)
             = Some (completed (PaymentVerification.razorpay_payment_id second) r)
          /\ find_first (PaymentVerification.registration_id first)
               (registrations db1) = Some d1
          /\ Registration.payment_status d1 = "completed"
          /\ Registration.payment_id d1
             = Some (PaymentVerification.razorpay_payment_id first)
          /\ find_first (PaymentVerification.registration_id first)
               (registrations db2) = Some d2
          /\ Registration.payment_status d2 = "completed"
          /\ Registration.payment_id d2
             = Some (PaymentVerification.razorpay_payment_id second)
          /\ Registration.order_id d2 = Registration.order_id r
          /\ Registration.amount d2 = Registration.amount r).
Proof.
  split; [reflexivity|]. split; [|split].
  - intros req db i d Hd.
    destruct (effect_lookup cfg req db _ i d (handle_effect cfg req db) Hd)
      as (d' & Hd' & _ & _ & Hst).
    exists d'. auto.
  - intros db db' i d Hrun Hd Hdone.
    destruct (steps_lookup cfg db db' Hrun i d Hd) as (d' & Hd' & _ & _ & Hst).
    exists d'. auto.
  - intros db r first second Hc Hup Hs1 Hs2 Hrid Hfind.
    assert (H1 : find_first (PaymentVerification.registration_id first)
                   (update_first (PaymentVerification.registration_id first)
                      [ set_payment_status "completed";
                        set_payment_id
                          (PaymentVerification.razorpay_payment_id first) ]
                      (registrations db))
                 = Some (completed (PaymentVerification.razorpay_payment_id first) r)).
    { rewrite (find_first_update_first _ _ _ _ Hfind). reflexivity. }
    assert (H2 : find_first (PaymentVerification.registration_id first)
                   (update_first (PaymentVerification.registration_id second)
                      [ set_payment_status "completed";
                        set_payment_id
                          (PaymentVerification.razorpay_payment_id second) ]
                      (update_first (PaymentVerification.registration_id first)
                         [ set_payment_status "completed";
                           set_payment_id
                             (PaymentVerification.razorpay_payment_id first) ]
                         (registrations db)))
                 = Some (completed (PaymentVerification.razorpay_payment_id second) r)).
    { rewrite Hrid. rewrite (find_first_update_first _ _ _ _ H1). reflexivity. }
    eexists _, _, _, _.
    split; [apply verify_payment_match; assumption|].
    split; [exact H1|].
    split; [apply verify_payment_match; assumption|].
    split; [exact H2|].
    split; [exact H1|]. split; [reflexivity|]. split; [reflexivity|].
    split; [exact H2|]. split; [reflexivity|]. split; [reflexivity|].
    split; reflexivity.
Qed.

End Transitions.

(** ** The sample data, run *)

Lemma sample_cfg_configured : configured Sample.cfg.
Proof. split; discriminate. Defined.

Lemma sample_signature_1 :
  expected_signature Sample.cfg "order_1" "pay_1" = Sample.signature_1.
Proof. vm_compute. reflexivity. Defined.

Lemma sample_signature_2 :
  expected_signature Sample.cfg "order_1" "pay_2" = Sample.signature_2.
Proof. vm_compute. reflexivity. Defined.

Lemma sample_payment_1_signed : signed_by Sample.cfg Sample.payment_1.
Proof. unfold signed_by. simpl. symmetry. exact sample_signature_1. Defined.

Lemma sample_payment_2_signed : signed_by Sample.cfg Sample.payment_2.
Proof. unfold signed_by. simpl. symmetry. exact sample_signature_2. Defined.

Lemma sample_db_created :
  @create_registration text_datetime Sample.input_data "reg-1" Sample.now
    Sample.empty_db
  = (Return Sample.registration, Sample.db).
Proof. vm_compute. reflexivity. Qed.

Lemma sha256_constants :
  length SHA256.K = 64%nat
  /\ nth 0 SHA256.K 0 = 0x428a2f98 /\ nth 63 SHA256.K 0 = 0xc67178f2
  /\ length SHA256.H0 = 8%nat
  /\ nth 0 SHA256.H0 0 = 0x6a09e667 /\ nth 7 SHA256.H0 0 = 0x5be0cd19.
Proof. repeat split; reflexivity. Qed.

Lemma sha256_abc :
  hex (SHA256.digest (encode "abc"))
  = "ba7816bf8f01cfea414140de5dae2223b00361a396177a9cb410ff61f20015ad".
Proof. vm_compute. reflexivity. Qed.

Lemma hmac_sha256_rfc4231_case_2 :
  hmac_sha256_hexdigest "Jefe" "what do ya want for nothing?"
  = "5bdcc146bf60754e6a042426089575c75a003f089d2739839dec58b964ec3843".
Proof. vm_compute. reflexivity. Qed.

Lemma verify_payment_correct_signature_witness :
  configured Sample.cfg
  /\ reachable Sample.db = true
  /\ find_first "reg-1" (registrations Sample.db) = Some Sample.registration
  /\ exists db' : Database,
       verify_payment Sample.cfg Sample.payment_1 Sample.db
       = (Return verify_success, db')
       /\ find_first "reg-1" (registrations db')
          = Some (completed "pay_1" Sample.registration).
Proof.
  split; [exact sample_cfg_configured|].
  split; [reflexivity|]. split; [reflexivity|].
  destruct (verify_payment_correct_signature Sample.cfg "order_1" "pay_1" "reg-1"
              Sample.db Sample.registration sample_cfg_configured
              eq_refl eq_refl) as (db' & Hrun & Hfind & _).
  exists db'. split; [|exact Hfind].
  unfold Sample.payment_1. rewrite <- sample_signature_1. exact Hrun.
Defined.

Lemma verify_payment_bad_signature_witness :
  configured Sample.cfg
  /\ PaymentVerification.razorpay_signature Sample.payment_forged
     <> expected_signature Sample.cfg "order_1" "pay_1"
  /\ verify_payment Sample.cfg Sample.payment_forged Sample.db
     = (Raise SignatureMismatch, Sample.db)
  /\ after_verifications Sample.cfg (repeat Sample.payment_forged 3) Sample.db
     = Sample.db.
Proof.
  assert (Hbad : PaymentVerification.razorpay_signature Sample.payment_forged
                 <> expected_signature Sample.cfg "order_1" "pay_1").
  { rewrite sample_signature_1. vm_compute. discriminate. }
  split; [exact sample_cfg_configured|]. split; [exact Hbad|].
  destruct (verify_payment_bad_signature Sample.cfg Sample.payment_forged
              Sample.db sample_cfg_configured Hbad) as (Hrej & Hrep & _).
  split; [exact Hrej|exact (Hrep 3%nat)].
Defined.

Lemma gateway_not_configured_witness :
  (razorpay_key_id Sample.cfg_absent = ""
   \/ razorpay_key_secret Sample.cfg_absent = "")
  /\ create_order Sample.cfg_absent Sample.echo_gateway Sample.order_data Sample.db
     = (Raise GatewayNotConfigured, Sample.db)
  /\ verify_payment Sample.cfg_absent Sample.payment_1 Sample.db
     = (Raise GatewayNotConfigured, Sample.db).
Proof.
  split; [left; reflexivity|].
  destruct (gateway_not_configured Sample.cfg_absent Sample.echo_gateway
              Sample.order_data Sample.payment_1 Sample.db
              (or_introl eq_refl)) as (Horder & Hverify & _).
  split; assumption.
Defined.

Lemma create_registration_amount_witness :
  reachable Sample.empty_db = true
  /\ exists (r : Registration.t string) (db' : Database),
       @create_registration text_datetime Sample.input_suite "reg-2" Sample.now
         Sample.empty_db = (Return r, db')
       /\ Registration.amount r = 3200000.
Proof.
  split; [reflexivity|].
  destruct (@create_registration_amount text_datetime Sample.input_suite "reg-2"
              Sample.now Sample.empty_db eq_refl)
    as (r & db' & Hrun & _ & _ & Hroom).
  exists r, db'. split; [exact Hrun|].
  exact (Hroom 8000 12000 "suite" eq_refl eq_refl eq_refl eq_refl).
Defined.

Lemma unknown_keys_contribute_zero_witness :
  reachable Sample.empty_db = true
  /\ PRICING !! RegistrationCreate.category Sample.input_unknown = None
  /\ ROOM_PRICING !! "penthouse" = None
  /\ exists (r : Registration.t string) (db' : Database),
       @create_registration text_datetime Sample.input_unknown "reg-3" Sample.now
         Sample.empty_db = (Return r, db')
       /\ Registration.amount r = 0.
Proof.
  split; [reflexivity|]. split; [reflexivity|]. split; [reflexivity|].
  destruct (@unknown_keys_contribute_zero text_datetime Sample.input_unknown
              "reg-3" Sample.now Sample.empty_db eq_refl)
    as (r & db' & Hrun & _ & _ & _ & Hzero).
  exists r, db'. split; [exact Hrun|].
  exact (Hzero "penthouse" eq_refl eq_refl eq_refl).
Defined.

Lemma create_then_get_registration_witness :
  RegistrationCreate.category Sample.input_data = "delegate_early_bird"
  /\ RegistrationCreate.accommodation_required Sample.input_data = false
  /\ reachable Sample.empty_db = true
  /\ find_first "reg-1" (registrations Sample.empty_db) = None
  /\ @fromisoformat text_datetime (@isoformat text_datetime Sample.now)
     = Some Sample.now
  /\ exists (r : Registration.t string) (db' : Database),
       @create_registration text_datetime Sample.input_data "reg-1" Sample.now
         Sample.empty_db = (Return r, db')
       /\ Registration.amount r = 1200000
       /\ @get_registration text_datetime "reg-1" db' = (Return r, db').
Proof.
  repeat (split; [reflexivity|]).
  destruct (@create_then_get_registration text_datetime Sample.input_data
              "reg-1" Sample.now Sample.empty_db eq_refl eq_refl eq_refl
              eq_refl eq_refl)
    as (r & db' & Hrun & Hamount & _ & _ & Hget).
  exists r, db'. auto.
Defined.

Lemma verify_payment_ignores_stored_order_witness :
  configured Sample.cfg
  /\ reachable Sample.db = true
  /\ signed_by Sample.cfg Sample.payment_1
  /\ find_first "reg-1" (registrations Sample.db) = Some Sample.registration
  /\ Registration.order_id Sample.registration = None
  /\ exists (db' : Database) (d' : Doc),
       verify_payment Sample.cfg Sample.payment_1 Sample.db
       = (Return verify_success, db')
       /\ find_first "reg-1" (registrations db') = Some d'
       /\ Registration.payment_status d' = "completed"
       /\ Registration.payment_id d' = Some "pay_1"
       /\ Registration.order_id d' = None.
Proof.
  split; [exact sample_cfg_configured|]. split; [reflexivity|].
  split; [exact sample_payment_1_signed|]. split; [reflexivity|].
  split; [reflexivity|].
  destruct (verify_payment_ignores_stored_order Sample.cfg Sample.payment_1
              Sample.db) as [_ Hdone].
  destruct (Hdone Sample.registration sample_cfg_configured eq_refl
              sample_payment_1_signed eq_refl)
    as (db' & d' & Hrun & _ & Hfind & Hstatus & Hpid & Horder & _);
    [discriminate|].
  exists db', d'. split; [exact Hrun|]. split; [exact Hfind|].
  split; [exact Hstatus|]. split; [exact Hpid|]. exact Horder.
Defined.

Lemma verify_payment_unknown_registration_witness :
  configured Sample.cfg
  /\ reachable Sample.db = true
  /\ signed_by Sample.cfg Sample.payment_unknown
  /\ find_first "no-such-registration" (registrations Sample.db) = None
  /\ verify_payment Sample.cfg Sample.payment_unknown Sample.db
     = (Return verify_success, Sample.db).
Proof.
  split; [exact sample_cfg_configured|]. split; [reflexivity|].
  split; [exact sample_payment_1_signed|]. split; [reflexivity|].
  exact (verify_payment_unknown_registration Sample.cfg Sample.payment_unknown
           Sample.db sample_cfg_configured eq_refl sample_payment_1_signed
           eq_refl).
Defined.

Lemma sample_create_order :
  create_order Sample.cfg Sample.echo_gateway Sample.order_data Sample.db
  = (Return (OrderResponse.mk "order_1" 100 "INR" "rzp_test_key"),
     {| reachable := true;
        registrations :=
          [Registration.with_order_id (Some "order_1") Sample.registration] |}).
Proof. vm_compute. reflexivity. Qed.

(** C3, as first stated, fails: a registration created with amount
    1200000 is stored, and [createOrder] for it with amount 100 asks the
    gateway for an order of 100 and answers 100. *)
Lemma create_order_amount_counterexample :
  @create_registration text_datetime Sample.input_data "reg-1" Sample.now
    Sample.empty_db
  = (Return Sample.registration, Sample.db)
  /\ Registration.amount Sample.registration = 1200000
  /\ find_first (OrderCreate.registration_id Sample.order_data)
       (registrations Sample.db)
     = Some Sample.registration
  /\ OrderParams.amount (order_params Sample.order_data) = 100
  /\ (exists db' : Database,
        create_order Sample.cfg Sample.echo_gateway Sample.order_data Sample.db
        = (Return (OrderResponse.mk "order_1" 100 "INR" "rzp_test_key"), db'))
  /\ ~ (forall (cfg : Config) (order_create : Gateway)
               (order_data : OrderCreate.t) (db db' : Database) (r : Doc)
               (o : OrderResponse.t),
          configured cfg ->
          find_first (OrderCreate.registration_id order_data) (registrations db)
          = Some r ->
          create_order cfg order_create order_data db = (Return o, db') ->
          OrderParams.amount (order_params order_data) = Registration.amount r
          /\ OrderResponse.amount o = Registration.amount r).
Proof.
  split; [exact sample_db_created|]. split; [reflexivity|].
  split; [reflexivity|]. split; [reflexivity|].
  split; [eexists; exact sample_create_order|].
  intros Hclaim.
  destruct (Hclaim Sample.cfg Sample.echo_gateway Sample.order_data Sample.db _
              Sample.registration _ sample_cfg_configured eq_refl
              sample_create_order) as [Hparams _].
  discriminate Hparams.
Qed.

Lemma amount_fixed_order_amount_supplied_witness :
  configured Sample.cfg
  /\ reachable Sample.db = true
  /\ Sample.echo_gateway (order_params Sample.order_data)
     = Return (Order.mk "order_1" 100 "INR")
  /\ (exists db' : Database,
        create_order Sample.cfg Sample.echo_gateway Sample.order_data Sample.db
        = (Return (OrderResponse.mk "order_1" 100 "INR" "rzp_test_key"), db'))
  /\ (exists d' : Doc,
        registrations
          (snd (@handle text_datetime Sample.cfg
                  (@CreateOrder text_datetime Sample.echo_gateway Sample.order_data)
                  Sample.db)) !! 0%nat = Some d'
        /\ Registration.id d' = "reg-1"
        /\ Registration.amount d' = 1200000).
Proof.
  split; [exact sample_cfg_configured|]. split; [reflexivity|].
  split; [reflexivity|].
  destruct (@amount_fixed_order_amount_supplied text_datetime Sample.cfg)
    as (Hfixed & _ & _ & Hissued).
  split.
  - exact (Hissued Sample.echo_gateway Sample.order_data Sample.db
             (Order.mk "order_1" 100 "INR") sample_cfg_configured eq_refl eq_refl).
  - exact (Hfixed Sample.db _ 0%nat Sample.registration
             (rtc_once _ _ (step_request Sample.cfg
                (@CreateOrder text_datetime Sample.echo_gateway Sample.order_data)
                Sample.db))
             eq_refl).
Defined.

Lemma payment_status_transitions_witness :
  configured Sample.cfg
  /\ reachable Sample.db = true
  /\ signed_by Sample.cfg Sample.payment_1
  /\ signed_by Sample.cfg Sample.payment_2
  /\ find_first "reg-1" (registrations Sample.db) = Some Sample.registration
  /\ Registration.payment_status Sample.registration = "pending"
  /\ exists (db1 db2 : Database) (d1 d2 : Doc),
       verify_payment Sample.cfg Sample.payment_1 Sample.db
       = (Return verify_success, db1)
       /\ verify_payment Sample.cfg Sample.payment_2 db1
          = (Return verify_success, db2)
       /\ find_first "reg-1" (registrations db1) = Some d1
       /\ Registration.payment_status d1 = "completed"
       /\ Registration.payment_id d1 = Some "pay_1"
       /\ find_first "reg-1" (registrations db2) = Some d2
       /\ Registration.payment_status d2 = "completed"
       /\ Registration.payment_id d2 = Some "pay_2".
Proof.
  split; [exact sample_cfg_configured|]. split; [reflexivity|].
  split; [exact sample_payment_1_signed|].
  split; [exact sample_payment_2_signed|].
  split; [reflexivity|]. split; [reflexivity|].
  destruct (@payment_status_transitions text_datetime Sample.cfg)
    as (_ & _ & _ & Hsecond).
  destruct (Hsecond Sample.db Sample.registration Sample.payment_1
              Sample.payment_2 sample_cfg_configured eq_refl
              sample_payment_1_signed sample_payment_2_signed eq_refl eq_refl)
    as (db1 & db2 & d1 & d2 & Hrun1 & _ & Hrun2 & _
        & Hd1 & Hst1 & Hpid1 & Hd2 & Hst2 & Hpid2 & _).
  exists db1, db2, d1, d2.
  split; [exact Hrun1|]. split; [exact Hrun2|].
  split; [exact Hd1|]. split; [exact Hst1|]. split; [exact Hpid1|].
  split; [exact Hd2|]. split; [exact Hst2|]. exact Hpid2.
Defined.

(** * Further properties of the handlers *)

Lemma find_first_id (rid : string) (docs : list Doc) (d : Doc) :
  find_first rid docs = Some d -> Registration.id d = rid.
Proof.
  induction docs as [|x rest IH]; simpl; [discriminate|].
  destruct (String.eqb (Registration.id x) rid) eqn:E; [|exact IH].
  intros [= <-]. apply String.eqb_eq, E.
Qed.

Lemma find_first_elem (rid : string) (docs : list Doc) (d : Doc) :
  find_first rid docs = Some d -> In d docs.
Proof.
  induction docs as [|x rest IH]; simpl; [discriminate|].
  destruct (String.eqb (Registration.id x) rid); [intros [= <-]; auto|auto].
Qed.

Lemma with_registrations_same (db : Database) :
  with_registrations (registrations db) db = db.
Proof. destruct db; reflexivity. Qed.

Section Reading.

Context `{DateTime}.

Lemma get_registration_store (rid : string) (db : Database) :
  snd (get_registration rid db) = db.
Proof.
  unfold get_registration, bind, find_one, with_store.
  destruct (reachable db); [|reflexivity].
  rewrite with_registrations_same.
  destruct (find_first rid (registrations db)); [|reflexivity].
  apply load_registration_store.
Qed.

(** X1. [get_registration] never writes: it answers with the first stored
    document carrying the requested id, whose id is therefore the one
    asked for, and with 404 when the reachable store holds none. *)
Theorem get_registration_lookup (rid : string) (db : Database) :
  snd (get_registration rid db) = db
  /\ (forall r : Registration.t datetime,
        fst (get_registration rid db) = Return r ->
        Registration.id r = rid
        /\ reachable db = true
        /\ exists doc : Doc,
             find_first rid (registrations db) = Some doc /\ loaded_from doc r)
  /\ (reachable db = true ->
      find_first rid (registrations db) = None ->
      fst (get_registration rid db)
      = Raise (HTTPException 404 "Registration not found"))
  /\ (reachable db = false ->
      fst (get_registration rid db) = Raise storage_error).
Proof.
  split; [apply get_registration_store|].
  unfold get_registration, bind, find_one, with_store.
  destruct (reachable db); simpl.
  - destruct (find_first rid (registrations db)) as [doc|] eqn:Hfind; simpl.
    + split; [|split; [discriminate|discriminate]].
      intros r. unfold load_registration.
      destruct (fromisoformat (Registration.created_at doc)) as [t|] eqn:Ht;
        simpl; [|discriminate].
      intros [= <-]. split; [exact (find_first_id _ _ _ Hfind)|].
      split; [reflexivity|]. exists doc. split; [reflexivity|].
      exists t. auto.
    + split; [discriminate|]. split; [reflexivity|discriminate].
  - split; [discriminate|]. split; [discriminate|reflexivity].
Qed.

Lemma load_registrations_result (docs : list Doc) (db : Database) :
  (forall rs : list (Registration.t datetime),
     fst (load_registrations docs db) = Return rs -> Forall2 loaded_from docs rs)
  /\ (Forall (fun doc => is_Some (fromisoformat (Registration.created_at doc))) docs ->
      exists rs : list (Registration.t datetime),
        fst (load_registrations docs db) = Return rs)
  /\ (Exists (fun doc => fromisoformat (Registration.created_at doc) = None) docs ->
      fst (load_registrations docs db) = Raise (Exception "ValueError")).
Proof.
  induction docs as [|d docs (IH1 & IH2 & IH3)].
  - simpl. split; [intros rs [= <-]; constructor|].
    split; [intros _; eexists; reflexivity|]. intros Hex. inversion Hex.
  - simpl. unfold bind at 1 3 5. unfold load_registration.
    destruct (fromisoformat (Registration.created_at d)) as [t|] eqn:Ht; simpl.
    + unfold bind.
      destruct (load_registrations docs db) as [[rs|e] db1] eqn:Hrest; simpl in *.
      * split; [|split].
        -- intros rs' [= <-]. constructor; [exists t; auto|]. apply IH1. reflexivity.
        -- intros _. eexists. reflexivity.
        -- intros Hex. apply Exists_cons in Hex as [Hd|Hex]; [congruence|].
           specialize (IH3 Hex). discriminate.
      * split; [discriminate|]. split.
        -- intros Hall. apply Forall_cons in Hall as [_ Hall].
           destruct (IH2 Hall) as [rs Hrs]. discriminate.
        -- intros Hex. apply Exists_cons in Hex as [Hd|Hex]; [congruence|].
           apply IH3, Hex.
    + split; [discriminate|]. split.
      * intros Hall. apply Forall_cons in Hall as [[t Hd] _]. congruence.
      * intros _. reflexivity.
Qed.

(** X2. [get_registrations] never writes and lists at most 1000
    registrations: when it answers, the list is the first 1000 stored
    documents, in order, each loaded; it answers whenever the store is
    reachable and those documents' [created_at] texts parse, and one text
    that does not parse fails the whole request. *)
Theorem get_registrations_listing (db : Database) :
  snd (get_registrations db) = db
  /\ (forall rs : list (Registration.t datetime),
        fst (get_registrations db) = Return rs ->
        Forall2 loaded_from (firstn 1000 (registrations db)) rs
        /\ length rs = Nat.min 1000 (length (registrations db))
        /\ (length rs <= 1000)%nat)
  /\ (reachable db = true ->
      Forall (fun doc => is_Some (fromisoformat (Registration.created_at doc)))
        (firstn 1000 (registrations db)) ->
      exists rs : list (Registration.t datetime),
        fst (get_registrations db) = Return rs)
  /\ (reachable db = true ->
      Exists (fun doc => fromisoformat (Registration.created_at doc) = None)
        (firstn 1000 (registrations db)) ->
      fst (get_registrations db) = Raise (Exception "ValueError")).
Proof.
  unfold get_registrations, bind, find_to_list, with_store.
  destruct (reachable db); simpl.
  - rewrite with_registrations_same.
    pose proof (load_registrations_store (firstn 1000 (registrations db)) db) as Hs.
    destruct (load_registrations_result (firstn 1000 (registrations db)) db)
      as (H1 & H2 & H3).
    split; [exact Hs|]. split; [|split; [intros _; exact H2|intros _; exact H3]].
    intros rs Hrs. specialize (H1 rs Hrs). split; [exact H1|].
    apply Forall2_length in H1. rewrite <- H1, length_firstn.
    split; [reflexivity|]. apply Nat.le_min_l.
  - split; [reflexivity|]. split; [discriminate|]. split; discriminate.
Qed.

End Reading.

(** X3. [create_order] answers an order only when the gateway is
    configured, the gateway issued the order and the store took the
    update, and then the store differs by that update alone; otherwise it
    raises a status-500 [HTTPException] of one of two kinds, nothing else,
    and the store is as it was. *)
Theorem create_order_outcomes (cfg : Config) (order_create : Gateway)
    (order_data : OrderCreate.t) (db : Database) :
  match create_order cfg order_create order_data db with
  | (Return o, db') =>
      configured cfg /\ reachable db = true
      /\ exists order : Order.t,
           order_create (order_params order_data) = Return order
           /\ o = OrderResponse.mk (Order.id order) (Order.amount order)
                    (Order.currency order) (razorpay_key_id cfg)
           /\ db' = with_registrations
                      (update_first (OrderCreate.registration_id order_data)
                         [set_order_id (Order.id order)] (registrations db)) db
  | (Raise e, db') =>
      db' = db
      /\ (e = GatewayNotConfigured
          \/ e = HTTPException 500 "Failed to create payment order")
  end.
Proof.
  destruct (razorpay_client cfg) eqn:Hc.
  - assert (Hconf : configured cfg)
      by (apply razorpay_client_configured; congruence).
    unfold create_order. rewrite Hc.
    unfold try_except, bind, call_gateway, update_one, with_store.
    destruct (order_create (order_params order_data)) as [order|e] eqn:Hgw;
      [|simpl; auto].
    destruct (reachable db); simpl; [|auto].
    split; [exact Hconf|]. split; [reflexivity|]. exists order. auto.
  - rewrite (create_order_unconfigured _ _ _ _ Hc). auto.
Qed.

(** X4. [verify_payment] answers success exactly when the gateway is
    configured, the supplied signature is the computed digest and the
    store is reachable; every failure is one of three [HTTPException]s
    and leaves the store as it was. *)
Theorem verify_payment_outcomes (cfg : Config)
    (payment_data : PaymentVerification.t) (db : Database) :
  (fst (verify_payment cfg payment_data db) = Return verify_success
   <-> configured cfg /\ signed_by cfg payment_data /\ reachable db = true)
  /\ (forall v : VerifyResponse.t,
        fst (verify_payment cfg payment_data db) = Return v -> v = verify_success)
  /\ (forall e : exn,
        fst (verify_payment cfg payment_data db) = Raise e ->
        snd (verify_payment cfg payment_data db) = db
        /\ (e = GatewayNotConfigured \/ e = SignatureMismatch
            \/ e = VerificationFailed)).
Proof.
  destruct (razorpay_client cfg) eqn:Hc.
  - assert (Hconf : configured cfg)
      by (apply razorpay_client_configured; congruence).
    destruct (String.string_dec
                (PaymentVerification.razorpay_signature payment_data)
                (expected_signature cfg
                   (PaymentVerification.razorpay_order_id payment_data)
                   (PaymentVerification.razorpay_payment_id payment_data)))
      as [Hsig|Hsig].
    + destruct (reachable db) eqn:Hup.
      * rewrite (verify_payment_match cfg payment_data db Hconf Hsig Hup). simpl.
        split; [split; auto|]. split; [intros v [= <-]; reflexivity|discriminate].
      * rewrite (verify_payment_storage_failure cfg payment_data db Hconf Hsig Hup).
        simpl. split; [split; [discriminate|intros (_ & _ & ?); discriminate]|].
        split; [discriminate|]. intros e [= <-]. auto.
    + rewrite (verify_payment_mismatch cfg payment_data db Hconf Hsig). simpl.
      split; [split; [discriminate|intros (_ & ? & _); contradiction]|].
      split; [discriminate|]. intros e [= <-]. auto.
  - rewrite (verify_payment_unconfigured _ _ _ Hc). simpl.
    split; [split; [discriminate|]|].
    + intros (Hconf & _). apply razorpay_client_configured in Hconf. congruence.
    + split; [discriminate|]. intros e [= <-]. auto.
Qed.

(** ** Updates *)

Lemma update_first_length (rid : string) (sets : list field_set) (docs : list Doc) :
  length (update_first rid sets docs) = length docs.
Proof.
  induction docs as [|x rest IH]; simpl; [reflexivity|].
  destruct (String.eqb (Registration.id x) rid); simpl; congruence.
Qed.

Lemma update_first_one (rid : string) (sets : list field_set) (docs : list Doc) :
  exists i : nat,
    forall j : nat, j <> i -> update_first rid sets docs !! j = docs !! j.
Proof.
  induction docs as [|x rest [i IH]]; simpl.
  - exists 0%nat. reflexivity.
  - destruct (String.eqb (Registration.id x) rid).
    + exists 0%nat. intros [|j] Hj; [congruence|reflexivity].
    + exists (S i). intros [|j] Hj; [reflexivity|]. simpl. apply IH. congruence.
Qed.

Lemma update_first_idempotent (rid : string) (sets : list field_set)
    (docs : list Doc) :
  (forall d : Doc,
     fold_left apply_set sets (fold_left apply_set sets d)
     = fold_left apply_set sets d) ->
  update_first rid sets (update_first rid sets docs) = update_first rid sets docs.
Proof.
  intros Hidem. induction docs as [|x rest IH]; simpl; [reflexivity|].
  destruct (String.eqb (Registration.id x) rid) eqn:E; simpl.
  - rewrite apply_sets_id, E, Hidem. reflexivity.
  - rewrite E, IH. reflexivity.
Qed.

Lemma find_first_app (rid : string) (docs : list Doc) (d : Doc) :
  find_first rid (docs ++ [d])
  = match find_first rid docs with
    | Some x => Some x
    | None => if String.eqb (Registration.id d) rid then Some d else None
    end.
Proof.
  induction docs as [|x rest IH]; simpl; [reflexivity|].
  destruct (String.eqb (Registration.id x) rid); [reflexivity|exact IH].
Qed.

(** X5. A successful [create_order] writes the gateway's order id into
    the first registration carrying the id and nowhere else; when no
    registration carries it the order is answered all the same and the
    store is as it was; a repeated call overwrites the order id. *)
Theorem create_order_records_order (cfg : Config) (order_create : Gateway)
    (order_data : OrderCreate.t) (db : Database) (order : Order.t) :
  configured cfg ->
  reachable db = true ->
  order_create (order_params order_data) = Return order ->
  exists db' : Database,
    create_order cfg order_create order_data db
    = (Return (OrderResponse.mk (Order.id order) (Order.amount order)
                 (Order.currency order) (razorpay_key_id cfg)), db')
    /\ (forall r : Doc,
          find_first (OrderCreate.registration_id order_data) (registrations db)
          = Some r ->
          find_first (OrderCreate.registration_id order_data) (registrations db')
          = Some (Registration.with_order_id (Some (Order.id order)) r))
    /\ (find_first (OrderCreate.registration_id order_data) (registrations db)
        = None -> db' = db)
    /\ (forall rid : string,
          rid <> OrderCreate.registration_id order_data ->
          find_first rid (registrations db') = find_first rid (registrations db))
    /\ (forall (again : Gateway) (order2 : Order.t) (r : Doc),
          again (order_params order_data) = Return order2 ->
          find_first (OrderCreate.registration_id order_data) (registrations db)
          = Some r ->
          find_first (OrderCreate.registration_id order_data)
            (registrations (snd (create_order cfg again order_data db')))
          = Some (Registration.with_order_id (Some (Order.id order2)) r))
    /\ (forall r : Doc,
          find_first (OrderCreate.registration_id order_data) (registrations db)
          = Some r ->
          exists d' : Doc,
            find_first (OrderCreate.registration_id order_data)
              (registrations db') = Some d'
            /\ Registration.order_id d' = Some (Order.id order)
            /\ Registration.id d' = Registration.id r
            /\ Registration.amount d' = Registration.amount r
            /\ Registration.payment_status d' = Registration.payment_status r
            /\ Registration.payment_id d' = Registration.payment_id r)
    /\ (forall (again : Gateway) (order2 : Order.t) (r : Doc),
          again (order_params order_data) = Return order2 ->
          find_first (OrderCreate.registration_id order_data) (registrations db)
          = Some r ->
          exists d2 : Doc,
            find_first (OrderCreate.registration_id order_data)
              (registrations (snd (create_order cfg again order_data db')))
            = Some d2
            /\ Registration.order_id d2 = Some (Order.id order2)
            /\ Registration.payment_status d2 = Registration.payment_status r
            /\ Registration.payment_id d2 = Registration.payment_id r).
Proof.
  intros Hc Hup Hgw. eexists.
  split; [apply create_order_issued; assumption|]. simpl.
  assert (Hset : forall r : Doc,
            find_first (OrderCreate.registration_id order_data) (registrations db)
            = Some r ->
            find_first (OrderCreate.registration_id order_data)
              (update_first (OrderCreate.registration_id order_data)
                 [set_order_id (Order.id order)] (registrations db))
            = Some (Registration.with_order_id (Some (Order.id order)) r)).
  { intros r Hfind. rewrite (find_first_update_first _ _ _ _ Hfind). reflexivity. }
  assert (Hagain : forall (again : Gateway) (order2 : Order.t) (r : Doc),
            again (order_params order_data) = Return order2 ->
            find_first (OrderCreate.registration_id order_data) (registrations db)
            = Some r ->
            find_first (OrderCreate.registration_id order_data)
              (registrations
                 (snd (create_order cfg again order_data
                         (with_registrations
                            (update_first (OrderCreate.registration_id order_data)
                               [set_order_id (Order.id order)] (registrations db))
                            db))))
            = Some (Registration.with_order_id (Some (Order.id order2)) r)).
  { intros again order2 r Hgw2 Hfind.
    rewrite (create_order_issued cfg again order_data _ order2 Hc) by assumption.
    simpl.
    exact (find_first_update_first _ [set_order_id (Order.id order2)] _ _
             (Hset r Hfind)). }
  split; [exact Hset|]. split; [|split; [|split; [exact Hagain|split]]].
  - intros Hnone. rewrite update_first_absent by exact Hnone.
    apply with_registrations_same.
  - intros rid Hne. apply find_first_other. exact Hne.
  - intros r Hfind. eexists. split; [exact (Hset r Hfind)|].
    repeat split; reflexivity.
  - intros again order2 r Hgw2 Hfind. eexists.
    split; [exact (Hagain again order2 r Hgw2 Hfind)|].
    repeat split; reflexivity.
Qed.

(** X6. Verifying again with the same payment data changes nothing more:
    the second call answers as the first and leaves the store the first
    left. *)
Theorem verify_payment_idempotent (cfg : Config)
    (payment_data : PaymentVerification.t) (db : Database) :
  verify_payment cfg payment_data (snd (verify_payment cfg payment_data db))
  = verify_payment cfg payment_data db.
Proof.
  destruct (verify_payment_outcomes cfg payment_data db) as (Hiff & _ & Hfail).
  destruct (verify_payment cfg payment_data db) as [[v|e] db'] eqn:Hrun.
  - simpl in *.
    assert (Hv : v = verify_success).
    { destruct (verify_payment_outcomes cfg payment_data db) as (_ & Hv & _).
      rewrite Hrun in Hv. apply Hv. reflexivity. }
    subst v. destruct (proj1 Hiff eq_refl) as (Hc & Hsig & Hup).
    rewrite (verify_payment_match cfg payment_data db Hc Hsig Hup) in Hrun.
    injection Hrun as <-.
    rewrite verify_payment_match by assumption. simpl.
    rewrite update_first_idempotent by reflexivity. reflexivity.
  - simpl in *. destruct (Hfail e eq_refl) as [-> _]. exact Hrun.
Qed.

Section Composition.

Context `{DateTime}.

Lemma get_registration_ext (rid : string) (db1 db2 : Database) :
  reachable db1 = reachable db2 ->
  find_first rid (registrations db1) = find_first rid (registrations db2) ->
  fst (get_registration rid db1) = fst (get_registration rid db2).
Proof.
  intros Hup Hfind. unfold get_registration, bind, find_one, with_store.
  rewrite Hup. destruct (reachable db2); [|reflexivity].
  simpl. rewrite Hfind.
  destruct (find_first rid (registrations db2)) as [doc|]; [|reflexivity].
  unfold load_registration.
  destruct (fromisoformat (Registration.created_at doc)); reflexivity.
Qed.

(** X7. Serving any one request leaves the store's reachability alone,
    never removes a document, adds at most one, and changes at most one
    of the documents already stored. *)
Theorem handle_changes_one_document (cfg : Config) (req : request)
    (db : Database) :
  (length (registrations db) <= length (registrations (snd (handle cfg req db)))
   <= S (length (registrations db)))%nat
  /\ exists i : nat,
       forall j : nat,
         j <> i ->
         (j < length (registrations db))%nat ->
         registrations (snd (handle cfg req db)) !! j = registrations db !! j.
Proof.
  destruct (handle_effect cfg req db)
    as [|input_data uuid4 now amount Hreq
        |order_create order_data orderId Hreq
        |payment_data Hreq Hconf Hsig Hres].
  - split; [lia|]. exists 0%nat. reflexivity.
  - rewrite length_app. simpl. split; [lia|].
    exists (length (registrations db)). intros j _ Hj.
    apply lookup_app_l. exact Hj.
  - rewrite update_first_length. split; [lia|].
    destruct (update_first_one (OrderCreate.registration_id order_data)
                [set_order_id orderId] (registrations db)) as [i Hi].
    exists i. intros j Hj _. apply Hi, Hj.
  - rewrite update_first_length. split; [lia|].
    destruct (update_first_one
                (PaymentVerification.registration_id payment_data)
                [ set_payment_status "completed";
                  set_payment_id
                    (PaymentVerification.razorpay_payment_id payment_data) ]
                (registrations db)) as [i Hi].
    exists i. intros j Hj _. apply Hi, Hj.
Qed.

(** X8. Creating a registration leaves every registration that could be
    fetched before fetchable with the same answer: [get_registration] for
    any id other than the new one, or for an id already stored, answers
    after the creation what it answered before. *)
Theorem create_registration_keeps_existing (input_data : RegistrationCreate.t)
    (uuid4 : string) (now : datetime) (db : Database) (rid : string) :
  reachable db = true ->
  rid <> uuid4 \/ is_Some (find_first rid (registrations db)) ->
  fst (get_registration rid (snd (create_registration input_data uuid4 now db)))
  = fst (get_registration rid db).
Proof.
  intros Hup Hold. rewrite (create_registration_run _ _ _ _ Hup). simpl.
  apply get_registration_ext; [reflexivity|]. simpl.
  rewrite find_first_app.
  destruct (find_first rid (registrations db)) as [doc|] eqn:Hfind; [reflexivity|].
  destruct Hold as [Hne|[doc Hdoc]]; [|discriminate]. simpl.
  destruct (String.eqb uuid4 rid) eqn:E; [|reflexivity].
  apply String.eqb_eq in E. congruence.
Qed.

(** X9. The whole payment path composes: a registration created under a
    fresh id, an order issued for it by the gateway, and a verification
    signed for that order and any payment id, leave a registration that
    [get_registration] returns as created except for the order id, the
    payment id and the status [completed]; its amount is the amount
    computed at creation, whatever amount the order was issued for. *)
Theorem registration_to_payment (cfg : Config) (order_create : Gateway)
    (input_data : RegistrationCreate.t) (uuid4 : string) (now : datetime)
    (order_amount : Z) (currency paymentId : string) (order : Order.t)
    (db : Database) :
  configured cfg ->
  reachable db = true ->
  find_first uuid4 (registrations db) = None ->
  fromisoformat (isoformat now) = Some now ->
  order_create (order_params (OrderCreate.mk order_amount currency uuid4))
  = Return order ->
  exists (r final : Registration.t datetime) (db1 db2 db3 : Database),
    create_registration input_data uuid4 now db = (Return r, db1)
    /\ create_order cfg order_create
         (OrderCreate.mk order_amount currency uuid4) db1
       = (Return (OrderResponse.mk (Order.id order) (Order.amount order)
                    (Order.currency order) (razorpay_key_id cfg)), db2)
    /\ verify_payment cfg
         (PaymentVerification.mk (Order.id order) paymentId
            (expected_signature cfg (Order.id order) paymentId) uuid4) db2
       = (Return verify_success, db3)
    /\ get_registration uuid4 db3
       = (Return
            (Registration.with_payment_id (Some paymentId)
               (Registration.with_payment_status "completed"
                  (Registration.with_order_id (Some (Order.id order)) r))),
          db3)
    /\ Registration.amount r = calculate_amount input_data * 100
    /\ Registration.payment_status r = "pending"
    /\ Registration.order_id r = None
    /\ Registration.payment_id r = None
    /\ get_registration uuid4 db3 = (Return final, db3)
    /\ Registration.order_id final = Some (Order.id order)
    /\ Registration.payment_id final = Some paymentId
    /\ Registration.payment_status final = "completed"
    /\ Registration.id final = uuid4
    /\ Registration.amount final = Registration.amount r
    /\ Registration.category final = RegistrationCreate.category input_data
    /\ Registration.email final = RegistrationCreate.email input_data
    /\ Registration.created_at final = now.
Proof.
  intros Hc Hup Hfresh Hiso Hgw.
  set (r := new_registration input_data uuid4 now
              (calculate_amount input_data * 100)).
  set (doc := Registration.with_created_at (isoformat now) r).
  assert (Hdoc : find_first uuid4 (registrations db ++ [doc]) = Some doc)
    by (apply find_first_app_fresh; [exact Hfresh|reflexivity]).
  pose proof (find_first_update_first uuid4 [set_order_id (Order.id order)]
                _ doc Hdoc) as Hordered.
  pose proof (find_first_update_first uuid4
                [set_payment_status "completed"; set_payment_id paymentId]
                _ _ Hordered) as Hpaid.
  set (db1 := with_registrations (registrations db ++ [doc]) db).
  set (db2 := with_registrations
                (update_first uuid4 [set_order_id (Order.id order)]
                   (registrations db1)) db1).
  set (db3 := with_registrations
                (update_first uuid4
                   [set_payment_status "completed"; set_payment_id paymentId]
                   (registrations db2)) db2).
  assert (Hget : get_registration uuid4 db3
                 = (Return
                      (Registration.with_payment_id (Some paymentId)
                         (Registration.with_payment_status "completed"
                            (Registration.with_order_id (Some (Order.id order)) r))),
                    db3)).
  { rewrite (get_registration_run uuid4 db3
               (completed paymentId
                  (Registration.with_order_id (Some (Order.id order)) doc)) now);
      [reflexivity|exact Hup|exact Hpaid|exact Hiso]. }
  exists r,
    (Registration.with_payment_id (Some paymentId)
       (Registration.with_payment_status "completed"
          (Registration.with_order_id (Some (Order.id order)) r))),
    db1, db2, db3.
  split; [apply create_registration_run, Hup|].
  split; [apply create_order_issued; [exact Hc|exact Hup|exact Hgw]|].
  split; [apply verify_payment_match; [exact Hc|reflexivity|exact Hup]|].
  split; [exact Hget|].
  split; [reflexivity|]. split; [reflexivity|]. split; [reflexivity|].
  split; [reflexivity|]. split; [exact Hget|].
  repeat split; reflexivity.
Qed.

End Composition.

(** ** Prices *)

Lemma PRICING_range (category : string) (fee : Z) :
  PRICING !! category = Some fee -> 3000 <= fee <= 18000.
Proof.
  unfold PRICING. intros Hfee. apply elem_of_list_to_map_2 in Hfee.
  repeat (apply elem_of_cons in Hfee as [Hfee|Hfee];
          [injection Hfee as _ ->; lia|]).
  apply elem_of_nil in Hfee. contradiction.
Qed.

Lemma ROOM_PRICING_range (room : string) (rate : Z) :
  ROOM_PRICING !! room = Some rate -> 6000 <= rate <= 12000.
Proof.
  unfold ROOM_PRICING. intros Hrate. apply elem_of_list_to_map_2 in Hrate.
  repeat (apply elem_of_cons in Hrate as [Hrate|Hrate];
          [injection Hrate as _ ->; lia|]).
  apply elem_of_nil in Hrate. contradiction.
Qed.

Lemma calculate_amount_range (input_data : RegistrationCreate.t) :
  0 <= calculate_amount input_data <= 42000
  /\ (forall fee : Z,
        PRICING !! RegistrationCreate.category input_data = Some fee ->
        fee <= calculate_amount input_data).
Proof.
  unfold calculate_amount, dict_get_opt, dict_get.
  assert (Hbase : 0 <= default 0 (PRICING !! RegistrationCreate.category input_data)
                  <= 18000).
  { destruct (PRICING !! RegistrationCreate.category input_data) as [fee|] eqn:Hfee;
      simpl; [|lia]. apply PRICING_range in Hfee. lia. }
  assert (Hroom : 0 <= match RegistrationCreate.room_type input_data with
                       | Some s => default 0 (ROOM_PRICING !! s)
                       | None => 0
                       end <= 12000).
  { destruct (RegistrationCreate.room_type input_data) as [room|]; [|lia].
    destruct (ROOM_PRICING !! room) as [rate|] eqn:Hrate; simpl; [|lia].
    apply ROOM_PRICING_range in Hrate. lia. }
  split.
  - destruct (_ && _); lia.
  - intros fee Hfee. rewrite Hfee in *. simpl in *. destruct (_ && _); lia.
Qed.

Section Bounds.

Context `{DateTime}.

(** X10. Whatever the input, a created registration's amount lies between
    0 and 4200000 paise and is a multiple of 100; for a category of the
    pricing table it is at least the category's fee, hence at least
    300000: a listed category is never free, and accommodation never
    lowers the amount. *)
Theorem create_registration_amount_range (input_data : RegistrationCreate.t)
    (uuid4 : string) (now : datetime) (db : Database) :
  reachable db = true ->
  exists (r : Registration.t datetime) (db' : Database),
    create_registration input_data uuid4 now db = (Return r, db')
    /\ 0 <= Registration.amount r <= 4200000
    /\ (100 | Registration.amount r)
    /\ (forall fee : Z,
          PRICING !! RegistrationCreate.category input_data = Some fee ->
          300000 <= fee * 100 <= Registration.amount r).
Proof.
  intros Hup. eexists _, _. split; [apply create_registration_run, Hup|].
  simpl. destruct (calculate_amount_range input_data) as [Hrange Hfee].
  split; [lia|]. split; [apply Z.divide_factor_r|].
  intros fee Hf. specialize (Hfee fee Hf). apply PRICING_range in Hf. lia.
Qed.

End Bounds.

(** ** What a signature covers *)

Lemma expected_signature_message (cfg : Config) (orderId paymentId : string) :
  expected_signature cfg orderId paymentId
  = hmac_sha256_hexdigest (razorpay_key_secret cfg)
      (canonical_message orderId paymentId).
Proof. reflexivity. Qed.

(** X11. The signature covers the joined text only: a signature issued
    for one order and payment is accepted for any other pair of ids that
    joins to the same [orderId|paymentId] text, and the payment id then
    recorded is that of the other pair. *)
Theorem signature_covers_joined_text (cfg : Config)
    (orderId paymentId orderId' paymentId' registrationId : string)
    (db : Database) (r : Doc) :
  configured cfg ->
  reachable db = true ->
  canonical_message orderId' paymentId' = canonical_message orderId paymentId ->
  find_first registrationId (registrations db) = Some r ->
  exists (db' : Database) (d' : Doc),
    verify_payment cfg
      (PaymentVerification.mk orderId' paymentId'
         (expected_signature cfg orderId paymentId) registrationId) db
    = (Return verify_success, db')
    /\ find_first registrationId (registrations db')
       = Some (completed paymentId' r)
    /\ find_first registrationId (registrations db') = Some d'
    /\ Registration.payment_id d' = Some paymentId'
    /\ Registration.payment_status d' = "completed".
Proof.
  intros Hc Hup Hmsg Hfind.
  assert (Hdone : find_first registrationId
                    (update_first registrationId
                       [set_payment_status "completed"; set_payment_id paymentId']
                       (registrations db))
                  = Some (completed paymentId' r)).
  { rewrite (find_first_update_first _ _ _ _ Hfind). reflexivity. }
  eexists _, _. split.
  - apply verify_payment_match; [exact Hc| |exact Hup].
    unfold signed_by. simpl. rewrite !expected_signature_message, Hmsg.
    reflexivity.
  - split; [exact Hdone|]. split; [exact Hdone|]. split; reflexivity.
Qed.

Lemma string_app_nil (s : string) : "" +:+ s = s.
Proof. reflexivity. Qed.

Lemma string_app_cons (a : ascii) (s t : string) :
  String a s +:+ t = String a (s +:+ t).
Proof. reflexivity. Qed.

(** X12. When the order ids hold no [|], the joined text determines the
    pair: two pairs that join to the same text are the same pair. *)
Theorem canonical_message_injective (orderId paymentId orderId' paymentId' : string) :
  has_pipe orderId = false ->
  has_pipe orderId' = false ->
  canonical_message orderId paymentId = canonical_message orderId' paymentId' ->
  orderId = orderId' /\ paymentId = paymentId'.
Proof.
  unfold canonical_message, has_pipe.
  revert orderId'. induction orderId as [|a o IH]; intros [|a' o'] H1 H2 Hmsg;
    repeat (rewrite string_app_nil in Hmsg || rewrite string_app_cons in Hmsg).
  - injection Hmsg as ->. auto.
  - injection Hmsg as <- _. cbn [list_ascii_of_string existsb] in H2.
    rewrite Ascii.eqb_refl in H2. discriminate.
  - injection Hmsg as -> _. cbn [list_ascii_of_string existsb] in H1.
    rewrite Ascii.eqb_refl in H1. discriminate.
  - injection Hmsg as -> Hmsg. cbn [list_ascii_of_string existsb] in H1, H2.
    apply orb_false_iff in H1 as [_ H1]. apply orb_false_iff in H2 as [_ H2].
    destruct (IH o' H1 H2 Hmsg) as [-> ->]. auto.
Qed.

(** ** Invariants of the stored registrations *)

Lemma update_first_Forall (P : Doc -> Prop) (rid : string)
    (sets : list field_set) (docs : list Doc) :
  (forall d : Doc, P d -> P (fold_left apply_set sets d)) ->
  Forall P docs -> Forall P (update_first rid sets docs).
Proof.
  intros Hsets Hall. induction Hall as [|x rest Hx Hall IH]; simpl; [constructor|].
  destruct (String.eqb (Registration.id x) rid); constructor; auto.
Qed.

Section Invariants.

Context `{DateTime}.

Lemma handle_Forall (P : Doc -> Prop) (cfg : Config) (req : request)
    (db : Database) :
  (forall (input_data : RegistrationCreate.t) (uuid4 : string) (now : datetime),
     P (Registration.with_created_at (isoformat now)
          (new_registration input_data uuid4 now
             (calculate_amount input_data * 100)))) ->
  (forall (d : Doc) (v : string), P d -> P (Registration.with_order_id (Some v) d)) ->
  (forall (d : Doc) (paymentId : string), P d -> P (completed paymentId d)) ->
  Forall P (registrations db) ->
  Forall P (registrations (snd (handle cfg req db))).
Proof.
  intros Hnew Horder Hpaid Hall.
  destruct req as [input_data uuid4 now|rid| |order_create order_data|payment_data].
  - unfold handle, bind. destruct (reachable db) eqn:Hup.
    + rewrite (create_registration_run _ _ _ _ Hup). simpl.
      apply Forall_app. split; [exact Hall|]. constructor; [apply Hnew|constructor].
    + unfold create_registration, bind, insert_one, with_store. rewrite Hup.
      exact Hall.
  - destruct (handle_effect cfg (GetRegistration rid) db); try discriminate; auto.
  - destruct (handle_effect cfg GetRegistrations db); try discriminate; auto.
  - destruct (handle_effect cfg (CreateOrder order_create order_data) db);
      try discriminate; [exact Hall|].
    apply update_first_Forall; [|exact Hall]. intros d Hd. apply Horder, Hd.
  - destruct (handle_effect cfg (VerifyPayment payment_data) db);
      try discriminate; [exact Hall|].
    apply update_first_Forall; [|exact Hall]. intros d Hd. apply Hpaid, Hd.
Qed.

(** X13. Along every run of requests, from a store where they hold (the
    empty store for one), two facts hold of every stored registration:
    it is [pending] without a payment id or [completed] with one, and its
    amount is a multiple of 100 between 0 and 4200000. *)
Theorem stored_registrations_invariant (cfg : Config) (db db' : Database) :
  rtc (step cfg) db db' ->
  Forall payment_consistent (registrations db) ->
  Forall amount_in_range (registrations db) ->
  Forall payment_consistent (registrations db')
  /\ Forall amount_in_range (registrations db').
Proof.
  induction 1 as [db|db db1 db2 Hstep _ IH]; intros Hpay Hamt; [auto|].
  apply IH; destruct Hstep as [req db|up db]; try assumption.
  - apply handle_Forall; try exact Hpay.
    + intros. left. auto.
    + intros d v Hd. exact Hd.
    + intros d paymentId _. right. split; [reflexivity|]. eexists. reflexivity.
  - apply handle_Forall; try exact Hamt.
    + intros input_data uuid4 now. unfold amount_in_range. simpl.
      destruct (calculate_amount_range input_data) as [Hrange _].
      split; [lia|apply Z.divide_factor_r].
    + intros d v Hd. exact Hd.
    + intros d paymentId Hd. exact Hd.
Qed.

End Invariants.

(** ** Creating, then listing *)

Section Listing.

Context `{DateTime}.

Lemma load_registrations_independent (docs : list Doc) (db1 db2 : Database) :
  fst (load_registrations docs db1) = fst (load_registrations docs db2).
Proof.
  induction docs as [|d docs IH]; [reflexivity|].
  simpl. unfold bind at 1 3. unfold load_registration.
  destruct (fromisoformat (Registration.created_at d)); [|reflexivity].
  simpl. unfold bind.
  pose proof (load_registrations_store docs db1) as H1.
  pose proof (load_registrations_store docs db2) as H2.
  destruct (load_registrations docs db1) as [[rs1|e1] s1],
           (load_registrations docs db2) as [[rs2|e2] s2];
    simpl in *; congruence.
Qed.

Lemma load_registrations_snoc (docs : list Doc) (d : Doc) (db : Database)
    (rs : list (Registration.t datetime)) (t : datetime) :
  fst (load_registrations docs db) = Return rs ->
  fromisoformat (Registration.created_at d) = Some t ->
  fst (load_registrations (docs ++ [d]) db)
  = Return (rs ++ [Registration.with_created_at t d])%list.
Proof.
  intros Hrs Ht. revert rs Hrs.
  induction docs as [|x docs IH]; intros rs Hrs.
  - injection Hrs as <-. simpl. unfold bind, load_registration. rewrite Ht.
    reflexivity.
  - simpl in *. unfold bind at 1 in Hrs. unfold bind at 1.
    unfold load_registration in *.
    destruct (fromisoformat (Registration.created_at x)) as [tx|]; [|discriminate].
    simpl in *. unfold bind in *.
    destruct (load_registrations docs db) as [[rs0|e] s0]; [|discriminate].
    simpl in Hrs. injection Hrs as <-.
    specialize (IH rs0 eq_refl).
    destruct (load_registrations (docs ++ [d]) db) as [[rs1|e] s1];
      simpl in IH; [|discriminate].
    injection IH as ->. reflexivity.
Qed.

Lemma get_registrations_run (db : Database) :
  reachable db = true ->
  fst (get_registrations db)
  = fst (load_registrations (firstn 1000 (registrations db)) db).
Proof.
  intros Hup. unfold get_registrations, bind, find_to_list, with_store.
  rewrite Hup. cbv beta iota zeta. rewrite with_registrations_same.
  reflexivity.
Qed.

(** X14. A registration just created is the last one [get_registrations]
    lists as long as fewer than 1000 were stored before; from the
    1000th stored registration on, the listing is the one given before
    the creation and the new registration is not in it. *)
Theorem create_registration_listed (input_data : RegistrationCreate.t)
    (uuid4 : string) (now : datetime) (db : Database)
    (listed : list (Registration.t datetime)) :
  reachable db = true ->
  fromisoformat (isoformat now) = Some now ->
  fst (get_registrations db) = Return listed ->
  exists (r : Registration.t datetime) (db' : Database),
    create_registration input_data uuid4 now db = (Return r, db')
    /\ ((length (registrations db) < 1000)%nat ->
        fst (get_registrations db') = Return (listed ++ [r])%list)
    /\ ((1000 <= length (registrations db))%nat ->
        fst (get_registrations db') = Return listed).
Proof.
  intros Hup Hiso Hlisted.
  eexists _, _. split; [apply create_registration_run, Hup|].
  rewrite (get_registrations_run db Hup) in Hlisted.
  set (r := new_registration _ _ _ _).
  set (doc := Registration.with_created_at (isoformat now) r).
  rewrite get_registrations_run by exact Hup.
  rewrite (load_registrations_independent _ _ db).
  cbn [registrations with_registrations].
  split.
  - intros Hfew.
    rewrite firstn_all2 by (rewrite length_app; simpl; lia).
    rewrite firstn_all2 in Hlisted by lia.
    exact (load_registrations_snoc (registrations db) doc db listed now
             Hlisted Hiso).
  - intros Hfull.
    rewrite firstn_app.
    replace (1000 - length (registrations db))%nat with 0%nat by lia.
    rewrite firstn_0, app_nil_r. exact Hlisted.
Qed.

(** ** The contact form *)

Lemma load_contacts_result (contacts : list ContactDoc)
    (listed : list (ContactMessage.t datetime)) :
  load_contacts contacts = Return listed ->
  Forall2 contact_loaded_from contacts listed.
Proof.
  revert listed. induction contacts as [|c contacts IH]; intros listed; simpl.
  - intros [= <-]. constructor.
  - destruct (fromisoformat (ContactMessage.created_at c)) as [t|] eqn:Ht;
      [|discriminate].
    destruct (load_contacts contacts) as [loaded|e]; [|discriminate].
    intros [= <-]. constructor; [exists t; auto|]. apply IH. reflexivity.
Qed.

Lemma load_contacts_snoc (contacts : list ContactDoc) (c : ContactDoc)
    (listed : list (ContactMessage.t datetime)) (t : datetime) :
  load_contacts contacts = Return listed ->
  fromisoformat (ContactMessage.created_at c) = Some t ->
  load_contacts (contacts ++ [c])
  = Return (listed ++ [ContactMessage.with_created_at t c])%list.
Proof.
  intros Hlisted Ht. revert listed Hlisted.
  induction contacts as [|x contacts IH]; intros listed; simpl.
  - intros [= <-]. rewrite Ht. reflexivity.
  - destruct (fromisoformat (ContactMessage.created_at x)) as [tx|];
      [|discriminate].
    destruct (load_contacts contacts) as [loaded|e]; [|discriminate].
    intros [= <-]. rewrite (IH loaded eq_refl). reflexivity.
Qed.

(** X15. [get_contacts] never writes and lists at most 1000 messages,
    the first 1000 stored ones in order, each loaded; on an unreachable
    store it raises and [submit_contact] stores nothing. *)
Theorem get_contacts_listing (db : ContactDatabase) :
  snd (get_contacts db) = db
  /\ (forall listed : list (ContactMessage.t datetime),
        fst (get_contacts db) = Return listed ->
        contacts_reachable db = true
        /\ Forall2 contact_loaded_from (firstn 1000 (contact_messages db)) listed
        /\ (length listed <= 1000)%nat)
  /\ (contacts_reachable db = false ->
      fst (get_contacts db) = Raise storage_error
      /\ forall (input_data : ContactMessageCreate.t) (uuid4 : string)
                (now : datetime),
           submit_contact input_data uuid4 now db = (Raise storage_error, db)).
Proof.
  unfold get_contacts, submit_contact.
  destruct (contacts_reachable db); simpl.
  - split; [reflexivity|]. split; [|discriminate].
    intros listed Hlisted. split; [reflexivity|].
    apply load_contacts_result in Hlisted. split; [exact Hlisted|].
    apply Forall2_length in Hlisted. rewrite <- Hlisted, length_firstn.
    apply Nat.le_min_l.
  - split; [reflexivity|]. split; [discriminate|]. auto.
Qed.

(** X16. A contact message just submitted is returned as stored and is
    the last one [get_contacts] lists as long as fewer than 1000 were
    stored before; from the 1000th stored message on, the listing is
    the one given before the submission. *)
Theorem submit_contact_listed (input_data : ContactMessageCreate.t)
    (uuid4 : string) (now : datetime) (db : ContactDatabase)
    (listed : list (ContactMessage.t datetime)) :
  contacts_reachable db = true ->
  fromisoformat (isoformat now) = Some now ->
  fst (get_contacts db) = Return listed ->
  exists (contact : ContactMessage.t datetime) (db' : ContactDatabase),
    submit_contact input_data uuid4 now db = (Return contact, db')
    /\ ContactMessage.id contact = uuid4
    /\ ContactMessage.message contact = ContactMessageCreate.message input_data
    /\ contact_messages db'
       = (contact_messages db
            ++ [ContactMessage.with_created_at (isoformat now) contact])%list
    /\ ((length (contact_messages db) < 1000)%nat ->
        fst (get_contacts db') = Return (listed ++ [contact])%list)
    /\ ((1000 <= length (contact_messages db))%nat ->
        fst (get_contacts db') = Return listed).
Proof.
  intros Hup Hiso Hlisted.
  assert (Hloaded : load_contacts (firstn 1000 (contact_messages db))
                    = Return listed).
  { unfold get_contacts in Hlisted. rewrite Hup in Hlisted. exact Hlisted. }
  unfold submit_contact. rewrite Hup.
  eexists _, _. split; [reflexivity|].
  split; [reflexivity|]. split; [reflexivity|]. split; [reflexivity|].
  unfold get_contacts. cbn [contacts_reachable contact_messages].
  cbn [fst ContactMessage.created_at]. split.
  - intros Hfew.
    rewrite firstn_all2 by (rewrite length_app; simpl; lia).
    rewrite firstn_all2 in Hloaded by lia.
    erewrite load_contacts_snoc; [reflexivity|exact Hloaded|exact Hiso].
  - intros Hfull. rewrite firstn_app.
    replace (1000 - length (contact_messages db))%nat with 0%nat by lia.
    rewrite firstn_0, app_nil_r. exact Hloaded.
Qed.

End Listing.

(** ** The tester's counters *)

Lemma log_all_from (calls : list ConferenceAPITester.call)
    (self : ConferenceAPITester.t) :
  let after := ConferenceAPITester.log_all calls self in
  ConferenceAPITester.tests_run after
  = ConferenceAPITester.tests_run self + Z.of_nat (length calls)
  /\ ConferenceAPITester.tests_passed after
     = ConferenceAPITester.tests_passed self
       + Z.of_nat (length (ConferenceAPITester.passes calls))
  /\ map ConferenceAPITester.status (ConferenceAPITester.test_results after)
     = (map ConferenceAPITester.status (ConferenceAPITester.test_results self)
        ++ map (fun c : ConferenceAPITester.call =>
                  let '(_, success, _, _) := c in
                  if success then "PASS" else "FAIL") calls)%list.
Proof.
  revert self. induction calls as [|[[[name success] details] now] calls IH];
    intros self; simpl.
  - rewrite app_nil_r. repeat split; lia.
  - destruct (IH (ConferenceAPITester.log_test name success details now self))
      as (Hrun & Hpass & Hres).
    unfold ConferenceAPITester.log_all in *. simpl in *.
    rewrite Hrun, Hpass, Hres. simpl. rewrite map_app. simpl.
    rewrite <- app_assoc. simpl.
    destruct success; simpl; repeat split; lia.
Qed.

(** X17. After any sequence of [log_test] calls on a fresh tester,
    [tests_run] is the number of calls, [tests_passed] the number of
    calls with a true [success], so never more than [tests_run], and the
    log holds one result per call, in order, marked [PASS] or [FAIL]
    accordingly. *)
Theorem log_test_counts (calls : list ConferenceAPITester.call) :
  let after := ConferenceAPITester.log_all calls ConferenceAPITester.init in
  ConferenceAPITester.tests_run after = Z.of_nat (length calls)
  /\ ConferenceAPITester.tests_passed after
     = Z.of_nat (length (ConferenceAPITester.passes calls))
  /\ 0 <= ConferenceAPITester.tests_passed after
     <= ConferenceAPITester.tests_run after
  /\ length (ConferenceAPITester.test_results after) = length calls
  /\ map ConferenceAPITester.status (ConferenceAPITester.test_results after)
     = map (fun c : ConferenceAPITester.call =>
              let '(_, success, _, _) := c in
              if success then "PASS" else "FAIL") calls.
Proof.
  destruct (log_all_from calls ConferenceAPITester.init) as (Hrun & Hpass & Hres).
  simpl in *. split; [exact Hrun|]. split; [exact Hpass|].
  split.
  - rewrite Hrun, Hpass. split; [lia|].
    apply inj_le. unfold ConferenceAPITester.passes. apply filter_length_le.
  - split; [|exact Hres].
    apply (f_equal (@length string)) in Hres. rewrite !length_map in Hres.
    exact Hres.
Qed.

(** ** The further properties on the sample data *)

Lemma create_order_records_order_witness :
  configured Sample.cfg
  /\ reachable Sample.db = true
  /\ Sample2.gateway (order_params Sample.order_data) = Return Sample2.order
  /\ Registration.order_id Sample.registration = None
  /\ exists (db' : Database) (d' : Doc),
       create_order Sample.cfg Sample2.gateway Sample.order_data Sample.db
       = (Return (OrderResponse.mk "order_1" 1200000 "INR" "rzp_test_key"), db')
       /\ find_first "reg-1" (registrations db') = Some d'
       /\ Registration.order_id d' = Some "order_1"
       /\ Registration.payment_status d' = "pending"
       /\ Registration.payment_id d' = None.
Proof.
  split; [exact sample_cfg_configured|]. split; [reflexivity|].
  split; [reflexivity|]. split; [reflexivity|].
  destruct (create_order_records_order Sample.cfg Sample2.gateway
              Sample.order_data Sample.db Sample2.order sample_cfg_configured
              eq_refl eq_refl) as (db' & Hrun & _ & _ & _ & _ & Hfields & _).
  destruct (Hfields Sample.registration eq_refl)
    as (d' & Hfind & Horder & _ & _ & Hstatus & Hpid).
  exists db', d'. split; [exact Hrun|]. split; [exact Hfind|].
  split; [exact Horder|]. split; [exact Hstatus|exact Hpid].
Defined.

Lemma create_registration_keeps_existing_witness :
  reachable Sample.db = true
  /\ "reg-1" <> "reg-2"
  /\ fst (@get_registration text_datetime "reg-1"
            (snd (@create_registration text_datetime Sample.input_suite "reg-2"
                    Sample.now Sample.db)))
     = fst (@get_registration text_datetime "reg-1" Sample.db).
Proof.
  split; [reflexivity|]. split; [discriminate|].
  apply (@create_registration_keeps_existing text_datetime Sample.input_suite
           "reg-2" Sample.now Sample.db "reg-1" eq_refl).
  left. discriminate.
Defined.

Lemma registration_to_payment_witness :
  configured Sample.cfg
  /\ reachable Sample.empty_db = true
  /\ find_first "reg-1" (registrations Sample.empty_db) = None
  /\ @fromisoformat text_datetime (@isoformat text_datetime Sample.now)
     = Some Sample.now
  /\ Sample2.gateway (order_params (OrderCreate.mk 1200000 "INR" "reg-1"))
     = Return Sample2.order
  /\ exists (r final : Registration.t string) (db1 db2 db3 : Database),
       @create_registration text_datetime Sample.input_data "reg-1" Sample.now
         Sample.empty_db = (Return r, db1)
       /\ verify_payment Sample.cfg
            (PaymentVerification.mk "order_1" "pay_1"
               (expected_signature Sample.cfg "order_1" "pay_1") "reg-1") db2
          = (Return verify_success, db3)
       /\ @get_registration text_datetime "reg-1" db3 = (Return final, db3)
       /\ Registration.order_id final = Some "order_1"
       /\ Registration.payment_id final = Some "pay_1"
       /\ Registration.payment_status final = "completed"
       /\ Registration.id final = "reg-1".
Proof.
  split; [exact sample_cfg_configured|].
  repeat (split; [reflexivity|]).
  destruct (@registration_to_payment text_datetime Sample.cfg Sample2.gateway
              Sample.input_data "reg-1" Sample.now 1200000 "INR" "pay_1"
              Sample2.order Sample.empty_db sample_cfg_configured
              eq_refl eq_refl eq_refl eq_refl)
    as (r & final & db1 & db2 & db3 & Hcreate & _ & Hverify & _ & _ & _ & _ & _
        & Hget & Horder & Hpid & Hstatus & Hid & _).
  exists r, final, db1, db2, db3.
  split; [exact Hcreate|]. split; [exact Hverify|]. split; [exact Hget|].
  split; [exact Horder|]. split; [exact Hpid|]. split; [exact Hstatus|exact Hid].
Defined.

Lemma create_registration_amount_range_witness :
  reachable Sample.empty_db = true
  /\ exists (r : Registration.t string) (db' : Database),
       @create_registration text_datetime Sample.input_suite "reg-2" Sample.now
         Sample.empty_db = (Return r, db')
       /\ 0 <= Registration.amount r <= 4200000
       /\ 300000 <= Registration.amount r.
Proof.
  split; [reflexivity|].
  destruct (@create_registration_amount_range text_datetime Sample.input_suite
              "reg-2" Sample.now Sample.empty_db eq_refl)
    as (r & db' & Hrun & Hrange & _ & Hfee).
  exists r, db'. split; [exact Hrun|]. split; [exact Hrange|].
  destruct (Hfee 8000 eq_refl) as [Hfloor Hlow].
  exact (Z.le_trans _ _ _ Hfloor Hlow).
Defined.

Lemma signature_covers_joined_text_witness :
  configured Sample.cfg
  /\ reachable Sample.db = true
  /\ canonical_message "a" "b|c" = canonical_message "a|b" "c"
  /\ find_first "reg-1" (registrations Sample.db) = Some Sample.registration
  /\ exists (db' : Database) (d' : Doc),
       verify_payment Sample.cfg Sample2.payment_shifted Sample.db
       = (Return verify_success, db')
       /\ find_first "reg-1" (registrations db') = Some d'
       /\ Registration.payment_id d' = Some "b|c"
       /\ Registration.payment_status d' = "completed".
Proof.
  split; [exact sample_cfg_configured|].
  repeat (split; [reflexivity|]).
  destruct (signature_covers_joined_text Sample.cfg "a|b" "c" "a" "b|c" "reg-1"
              Sample.db Sample.registration sample_cfg_configured eq_refl eq_refl
              eq_refl) as (db' & d' & Hrun & _ & Hfind & Hpid & Hstatus).
  exists db', d'. split; [exact Hrun|]. split; [exact Hfind|].
  split; [exact Hpid|exact Hstatus].
Defined.

Lemma canonical_message_injective_witness :
  has_pipe "order_1" = false
  /\ canonical_message "order_1" "pay|1" = canonical_message "order_1" "pay|1"
  /\ "order_1" = "order_1" /\ "pay|1" = "pay|1".
Proof.
  split; [reflexivity|]. split; [reflexivity|].
  exact (canonical_message_injective "order_1" "pay|1" "order_1" "pay|1"
           eq_refl eq_refl eq_refl).
Defined.

Lemma stored_registrations_invariant_witness :
  Forall payment_consistent (registrations Sample.empty_db)
  /\ Forall amount_in_range (registrations Sample.empty_db)
  /\ Forall payment_consistent
       (registrations
          (snd (@handle text_datetime Sample.cfg
                  (@CreateRegistration text_datetime Sample.input_data "reg-1"
                     Sample.now) Sample.empty_db)))
  /\ Forall amount_in_range
       (registrations
          (snd (@handle text_datetime Sample.cfg
                  (@CreateRegistration text_datetime Sample.input_data "reg-1"
                     Sample.now) Sample.empty_db))).
Proof.
  split; [constructor|]. split; [constructor|].
  apply (@stored_registrations_invariant text_datetime Sample.cfg
           Sample.empty_db).
  - apply rtc_once.
    exact (step_request Sample.cfg
             (@CreateRegistration text_datetime Sample.input_data "reg-1"
                Sample.now) Sample.empty_db).
  - constructor.
  - constructor.
Defined.

Lemma create_registration_listed_witness :
  reachable Sample.empty_db = true
  /\ fst (@get_registrations text_datetime Sample.empty_db) = Return []
  /\ exists (r : Registration.t string) (db' : Database),
       @create_registration text_datetime Sample.input_data "reg-1" Sample.now
         Sample.empty_db = (Return r, db')
       /\ fst (@get_registrations text_datetime db') = Return [r].
Proof.
  split; [reflexivity|]. split; [reflexivity|].
  destruct (@create_registration_listed text_datetime Sample.input_data "reg-1"
              Sample.now Sample.empty_db [] eq_refl eq_refl eq_refl)
    as (r & db' & Hrun & Hfew & _).
  exists r, db'. split; [exact Hrun|]. apply Hfew. simpl. lia.
Defined.

Lemma submit_contact_listed_witness :
  contacts_reachable Sample2.empty_contacts = true
  /\ fst (@get_contacts text_datetime Sample2.empty_contacts) = Return []
  /\ exists (contact : ContactMessage.t string) (db' : ContactDatabase),
       @submit_contact text_datetime Sample2.contact_input "msg-1" Sample.now
         Sample2.empty_contacts = (Return contact, db')
       /\ fst (@get_contacts text_datetime db') = Return [contact].
Proof.
  split; [reflexivity|]. split; [reflexivity|].
  destruct (@submit_contact_listed text_datetime Sample2.contact_input "msg-1"
              Sample.now Sample2.empty_contacts [] eq_refl eq_refl eq_refl)
    as (contact & db' & Hrun & _ & _ & _ & Hfew & _).
  exists contact, db'. split; [exact Hrun|]. apply Hfew. simpl. lia.
Defined.
